(** * pvc-autoscaler: the reconcile loop of [cmd/reconcile.go]

    A shallow embedding of the methods [reconcile] and
    [updatePVCWithNewStorageSize] of [PVCAutoscaler], and the properties
    of the resize decision that follow from it.

    - Go's [int64] is a [Z] with the wrap-around written out ([wrap64]).
    - [float64(x)] for an [int64] [x] is the integer obtained by rounding
      [x] to 53 significant bits, ties to even ([float64_of_int64]); the
      division by [1<<30] and [math.Ceil] are exact on such a value.
    - Kubernetes maps ([Annotations], [ResourceList]) are [gmap]s; a map
      that can be [nil] is an [option] of a [gmap].
    - Logging, the calls to collaborators and the [Update] request form a
      trace of events; [continue], normal completion and a runtime panic
      are the three ways a loop body ends. *)

From Stdlib Require Import ZArith Lia Floats Ascii String.
From stdpp Require Import base gmap strings list.

Local Open Scope string_scope.
Local Open Scope Z_scope.

(** ** Machine integers *)

Module Int64.

Definition min_int : Z := - 2 ^ 63.
Definition max_int : Z := 2 ^ 63 - 1.

Definition in_range (z : Z) : Prop := min_int <= z <= max_int.

Definition in_rangeb (z : Z) : bool := (min_int <=? z) && (z <=? max_int).

(** Two's complement wrap-around of an [int64] result. *)
Definition wrap64 (z : Z) : Z := (z + 2 ^ 63) mod 2 ^ 64 - 2 ^ 63.

Definition add (a b : Z) : Z := wrap64 (a + b).

(** [a << n] on an [int64]. *)
Definition shl (a : Z) (n : Z) : Z := wrap64 (Z.shiftl a n).

End Int64.

(** ** [float64] values of integers

    Every operation [reconcile] performs in [float64] has an integer
    operand or an exactly representable result, so the values are
    tracked as the integers (and the exact quotient) they denote. *)

Module Float64.

(** [float64(x)]: the nearest value with a 53-bit significand, ties to
    the even significand. *)
Definition float64_of_int64 (x : Z) : Z :=
  let a := Z.abs x in
  if a <? 2 ^ 53 then x
  else
    let e := Z.log2 a - 52 in
    let q := Z.shiftr a e in
    let r := a mod 2 ^ e in
    let half := 2 ^ (e - 1) in
    let q' := if (half <? r) || ((r =? half) && Z.odd q) then q + 1 else q in
    Z.sgn x * (q' * 2 ^ e).

(** [math.Ceil(f / (1<<30))] for an integral [f]: dividing by a power of
    two is exact in binary floating point, and so is [math.Ceil]. *)
Definition ceil_div_GiB (f : Z) : Z := - ((- f) / 2 ^ 30).

(** The integer a finite, integral [spec_float] denotes. *)
Definition Z_of_spec_float (f : SpecFloat.spec_float) : option Z :=
  match f with
  | SpecFloat.S754_zero _ => Some 0
  | SpecFloat.S754_finite s m e =>
      let sign := if s then -1 else 1 in
      if 0 <=? e then Some (sign * (Z.pos m * 2 ^ e))
      else if Z.pos m mod 2 ^ (- e) =? 0 then Some (sign * (Z.pos m / 2 ^ (- e)))
      else None
  | _ => None
  end.

(** The hardware conversion of a non-negative [int64]. *)
Definition hardware_of_int64 (x : Z) : option Z :=
  Z_of_spec_float (FloatOps.Prim2SF (PrimFloat.of_uint63 (Uint63.of_Z x))).

End Float64.

(** ** [strconv] *)

Module Strconv.

Definition digit_of_ascii (c : ascii) : option Z :=
  let n := Z.of_N (Ascii.N_of_ascii c) in
  if (48 <=? n) && (n <=? 57) then Some (n - 48) else None.

Definition ascii_of_digit (d : Z) : ascii :=
  Ascii.ascii_of_N (Z.to_N (d + 48)).

(** The digits of [s] read in base 10 on top of [acc]; [None] on any
    other character. *)
Fixpoint parse_digits (s : string) (acc : Z) : option Z :=
  match s with
  | EmptyString => Some acc
  | String c rest =>
      match digit_of_ascii c with
      | Some d => parse_digits rest (10 * acc + d)
      | None => None
      end
  end.

Definition parse_unsigned (s : string) : option Z :=
  match s with
  | EmptyString => None
  | _ => parse_digits s 0
  end.

(** [strconv.ParseInt(s, 10, 64)]: an optional sign, at least one
    digit, only digits ([ErrSyntax] otherwise), and a value that fits
    [int64] ([ErrRange] otherwise). [None] is a returned error. *)
Definition ParseInt (s : string) : option Z :=
  let signed :=
    match s with
    | String "+"%char rest => parse_unsigned rest
    | String "-"%char rest => Z.opp <$> parse_unsigned rest
    | _ => parse_unsigned s
    end in
  match signed with
  | Some v => if Int64.in_rangeb v then Some v else None
  | None => None
  end.

(** The [Err] field of the [NumError] that [ParseInt] returns. *)
Definition ParseInt_error (s : string) : string :=
  let signed :=
    match s with
    | String "+"%char rest => parse_unsigned rest
    | String "-"%char rest => parse_unsigned rest
    | _ => parse_unsigned s
    end in
  match signed with
  | Some _ => "value out of range"
  | None => "invalid syntax"
  end.

Fixpoint format_digits (fuel : nat) (n : Z) (acc : string) : string :=
  let acc' := String (ascii_of_digit (n mod 10)) acc in
  match fuel with
  | O => acc'
  | S fuel' => if n <? 10 then acc' else format_digits fuel' (n / 10) acc'
  end.

(** [strconv.FormatInt(n, 10)]; an [int64] has at most 19 digits. *)
Definition FormatInt (n : Z) : string :=
  if n <? 0 then String "-"%char (format_digits 19 (- n) EmptyString)
  else format_digits 19 n EmptyString.

End Strconv.


(** ** Kubernetes objects *)

(** Go's [error]: [None] is [nil]. *)
Abbreviation Err := string (only parsing).

Inductive Result (A : Type) : Type :=
| Ok (a : A)
| Failed (err : Err).
Arguments Ok {A} a.
Arguments Failed {A} err.

(** [resource.Quantity], held as a whole number of bytes. *)
Module Quantity.

Abbreviation t := Z (only parsing).

Definition NewQuantity (value : Z) : t := value.

Definition Value (q : t) : Z := q.

(** [q.Cmp(y)]: -1, 0 or 1. *)
Definition Cmp (q y : t) : Z :=
  match q ?= y with
  | Lt => -1
  | Eq => 0
  | Gt => 1
  end.

End Quantity.

Abbreviation ResourceList := (gmap string Z) (only parsing).
Abbreviation AnnotationMap := (gmap string string) (only parsing).

Definition ResourceStorage : string := "storage".

Record ResourceRequirements := {
  Limits : option ResourceList;
  Requests : option ResourceList;
}.

Record PersistentVolumeClaimSpec := {
  StorageClassName : option string;
  Resources : ResourceRequirements;
}.

(** [Capacity] is only read; a [nil] map reads as the empty one. *)
Record PersistentVolumeClaimStatus := {
  Phase : string;
  Capacity : ResourceList;
}.

Record PersistentVolumeClaim := {
  Namespace : string;
  Name : string;
  Annotations : option AnnotationMap;
  Spec : PersistentVolumeClaimSpec;
  Status : PersistentVolumeClaimStatus;
}.

(** [Size] is the encoded size [pvcl.Size()] reports. *)
Record PersistentVolumeClaimList := {
  Items : list PersistentVolumeClaim;
  Size : Z;
}.

Abbreviation NamespacedName := (string * string)%type (only parsing).

Record PVCMetrics := {
  VolumeUsedBytes : Z;
  VolumeCapacityBytes : Z;
}.

Abbreviation MetricsMap := (gmap (string * string) PVCMetrics) (only parsing).

(** [m[key]] on a map of strings: the zero value when the key is missing
    or the map is [nil]. *)
Definition index_string (m : option AnnotationMap) (key : string) : string :=
  default EmptyString (m ≫= lookup key).

(** [v, ok := m[key]]. *)
Definition index_ok {V} (m : option (gmap string V)) (key : string) : option V :=
  m ≫= lookup key.

(** ** Annotation keys and defaults *)

(** The annotation keys and the default policy values are constants
    declared outside [cmd/reconcile.go]; their names and values are those
    of the specification's table of policy metadata keys. *)

(** Modelled from the spec: the key of the threshold annotation. *)
Definition PVCAutoscalerThresholdAnnotation : string := "threshold".

(** Modelled from the spec: the key of the increase annotation. *)
Definition PVCAutoscalerIncreaseAnnotation : string := "increase".

(** Modelled from the spec: the key of the ceiling annotation. *)
Definition PVCAutoscalerCeilingAnnotation : string := "ceiling".

(** Modelled from the spec: the key of the marker of the oscillation
    guard. *)
Definition PVCAutoscalerPreviousCapacityAnnotation : string := "previous_capacity".

(** Modelled from the spec: the threshold of a claim without the
    annotation. *)
Definition DefaultThreshold : string := "80%".

(** Modelled from the spec: the increase of a claim without the
    annotation. *)
Definition DefaultIncrease : string := "20%".

(** ** Events, and the ways a statement ends *)

Inductive Level := Debug | Info | Error.

Inductive FieldValue :=
| VString (s : string)
| VError (err : Err)
| VInt (n : Z)
| VQuantity (q : Z).

Record Entry := {
  level : Level;
  fields : list (string * FieldValue);
  message : string;
}.

Inductive Event :=
| Log (e : Entry)
| CallGetAnnotatedPVCs
| CallFetchPVCsMetrics
| CallIsStorageClassExpandable (storageClassName : string)
| CallIsPVCResizable (pvc : PersistentVolumeClaim)
| CallConvertPercentageToBytes (value : string) (capacity : Z) (defaultValue : string)
| CallGetPVCStorageCeiling (pvc : PersistentVolumeClaim)
| CallUpdate (namespace : string) (pvc : PersistentVolumeClaim).

Inductive Flow (A : Type) : Type :=
| Next (a : A)
| Continue
| Panic (reason : string).
Arguments Next {A} a.
Arguments Continue {A}.
Arguments Panic {A} reason.

(** A computation: the events it emits, in order, and how it ends. *)
Definition M (A : Type) : Type := (list Event * Flow A)%type.

#[global] Instance M_ret : MRet M := λ A a, ([], Next a).

#[global] Instance M_bind : MBind M := λ A B f m,
  match m with
  | (t, Next a) => let '(t', r) := f a in ((t ++ t')%list, r)
  | (t, Continue) => (t, Continue)
  | (t, Panic reason) => (t, Panic reason)
  end.

Definition emit (e : Event) : M unit := ([e], Next tt).

Definition log (lvl : Level) (fs : list (string * FieldValue)) (msg : string) : M unit :=
  emit (Log {| level := lvl; fields := fs; message := msg |}).

(** A call to a collaborator: the call is recorded, its answer returned. *)
Definition call {A} (e : Event) (answer : A) : M A := ([e], Next answer).

Definition continue {A} : M A := ([], Continue).

Definition panic {A} (reason : string) : M A := ([], Panic reason).

(** [*p]. *)
Definition deref {A} (p : option A) : M A :=
  match p with
  | Some a => mret a
  | None => panic "invalid memory address or nil pointer dereference"
  end.

(** [m[key] = v]; writing to a [nil] map panics. *)
Definition assign {V} (m : option (gmap string V)) (key : string) (v : V) : M (option (gmap string V)) :=
  match m with
  | Some entries => mret (Some (<[key := v]> entries))
  | None => panic "assignment to entry in nil map"
  end.

(** [v, err := f(..); if err != nil { handler }]. *)
Definition unless_err {A} (r : Result A) (handler : Err → M A) : M A :=
  match r with
  | Ok a => mret a
  | Failed err => handler err
  end.

(** [if cond { body }]. *)
Definition when (cond : bool) (body : M unit) : M unit :=
  if cond then body else mret tt.

(** The [for ... range] loop: [continue] ends one iteration, a panic
    ends the loop and everything around it. *)
Definition end_iteration (m : M unit) : M unit :=
  match m with
  | (t, Continue) => (t, Next tt)
  | _ => m
  end.

Fixpoint for_range {A} (items : list A) (body : A → M unit) : M unit :=
  match items with
  | [] => mret tt
  | item :: rest => end_iteration (body item) ;; for_range rest body
  end.

(** ** Collaborators

    The calls [reconcile] makes to code outside [cmd/reconcile.go]: the
    Kubernetes client, the metrics client and the helpers of the
    package. Each is known here by its answers only. *)

Class Collaborators := {
  getAnnotatedPVCs : Result PersistentVolumeClaimList;
  FetchPVCsMetrics : Result MetricsMap;
  isStorageClassExpandable : string → Result bool;
  isPVCResizable : PersistentVolumeClaim → option Err;
  convertPercentageToBytes : string → Z → string → Result Z;
  getPVCStorageCeiling : PersistentVolumeClaim → Result Z;
  Update : PersistentVolumeClaim → option Err;
}.

(** ** [reconcile] *)

Definition with_Requests (pvc : PersistentVolumeClaim) (requests : option (gmap string Z))
  : PersistentVolumeClaim :=
  {| Namespace := Namespace pvc;
     Name := Name pvc;
     Annotations := Annotations pvc;
     Spec := {| StorageClassName := StorageClassName (Spec pvc);
                Resources := {| Limits := Limits (Resources (Spec pvc));
                                Requests := requests |} |};
     Status := Status pvc |}.

Definition with_Annotations (pvc : PersistentVolumeClaim) (annotations : option (gmap string string))
  : PersistentVolumeClaim :=
  {| Namespace := Namespace pvc;
     Name := Name pvc;
     Annotations := annotations;
     Spec := Spec pvc;
     Status := Status pvc |}.

(** [fmt.Sprintf("%s/%s", namespace, name)]. *)
Definition pvcIdOf (namespace name : string) : string :=
  namespace +:+ "/" +:+ name.

(** [int64(math.Ceil(float64(raw)/(1<<30))) << 30]. *)
Definition roundUpToGiB (raw : Z) : Z :=
  Int64.shl (Float64.ceil_div_GiB (Float64.float64_of_int64 raw)) 30.

(** Lines 140-144: the new size for a claim of [capacity] bytes that
    grows by [increase] bytes below [ceiling]. *)
Definition newStorageFor (capacity increase ceiling : Z) : Z :=
  let newStorageBytes := roundUpToGiB (Int64.add (Quantity.Value capacity) increase) in
  let newStorage := Quantity.NewQuantity newStorageBytes in
  if 0 <? Quantity.Cmp newStorage ceiling then ceiling else newStorage.

Definition unless_none {A} (o : option A) (handler : M A) : M A :=
  match o with
  | Some a => mret a
  | None => handler
  end.

Definition if_err (err : option Err) (handler : Err → M unit) : M unit :=
  match err with
  | Some e => handler e
  | None => mret tt
  end.

Section Reconcile.

Context `{!Collaborators}.

Definition updatePVCWithNewStorageSize (pvcToResize : PersistentVolumeClaim)
    (capacityBytes : Z) (newStorageBytes : Z) : M (option Err) :=
  let pvcId := pvcIdOf (Namespace pvcToResize) (Name pvcToResize) in
  requests ← assign (Requests (Resources (Spec pvcToResize))) ResourceStorage newStorageBytes;
  let pvcToResize := with_Requests pvcToResize requests in
  annotations ← assign (Annotations pvcToResize) PVCAutoscalerPreviousCapacityAnnotation
                   (Strconv.FormatInt capacityBytes);
  let pvcToResize := with_Annotations pvcToResize annotations in
  log Debug [("id", VString pvcId)]
    "PVCAutoscalerPreviousCapacityAnnotation annotation written" ;;
  err ← call (CallUpdate (Namespace pvcToResize) pvcToResize) (Update pvcToResize);
  match err with
  | Some err => mret (Some ("failed to update PVC " +:+ pvcId +:+ ": " +:+ err))
  | None =>
      log Debug [("id", VString pvcId)] "update function called and returned no error" ;;
      mret None
  end.

(** The body of the loop over [pvcl.Items] (lines 32-159). *)
Definition reconcile_pvc (pvcsMetrics : gmap (string * string) PVCMetrics)
    (pvc : PersistentVolumeClaim) : M unit :=
  let pvcId := pvcIdOf (Namespace pvc) (Name pvc) in
  log Debug [("id", VString pvcId)] "processing pvc" ;;

  storageClassName ← deref (StorageClassName (Spec pvc));
  r ← call (CallIsStorageClassExpandable storageClassName)
           (isStorageClassExpandable storageClassName);
  isExpandable ← unless_err r (λ err,
    log Error [("storageClassName", VString storageClassName);
               ("pvcId", VString pvcId); ("error", VError err)]
      "failed getting StorageClass" ;;
    continue);
  when (negb isExpandable) (
    log Error [("storageClassName", VString storageClassName); ("pvcId", VString pvcId)]
      "the StorageClass does not allow volume expansion" ;;
    continue) ;;
  log Debug [("id", VString pvcId)] "storageclass allows volume expansion" ;;

  err ← call (CallIsPVCResizable pvc) (isPVCResizable pvc);
  if_err err (λ err,
    log Error [("pvcId", VString pvcId); ("error", VError err)]
      "the PersistentVolumeClaim %s is not resizable: %v" ;;
    continue) ;;
  log Debug [("id", VString pvcId)] "pvc meets the resizing conditions" ;;

  let namespacedName := (Namespace pvc, Name pvc) in
  metrics ← unless_none (pvcsMetrics !! namespacedName) (
    log Error [("id", VString pvcId)] "could not fetch the metrics for pvc" ;;
    continue);
  log Debug [("id", VString pvcId)] "metrics for pvc received" ;;

  let pvcCurrentCapacityBytes := VolumeCapacityBytes metrics in

  let value := index_string (Annotations pvc) PVCAutoscalerThresholdAnnotation in
  r ← call (CallConvertPercentageToBytes value pvcCurrentCapacityBytes DefaultThreshold)
           (convertPercentageToBytes value pvcCurrentCapacityBytes DefaultThreshold);
  threshold ← unless_err r (λ err,
    log Error [("pvcId", VString pvcId); ("error", VError err)]
      "failed to convert threshold annotation" ;;
    continue);

  capacity ← unless_none (Capacity (Status pvc) !! ResourceStorage) (
    log Info [("id", VString pvcId)] "skip pvc because its capacity is not set yet" ;;
    continue);
  when (Quantity.Value capacity =? 0) (
    log Info [("id", VString pvcId)] "skip pvc because its capacity is zero" ;;
    continue) ;;

  let value := index_string (Annotations pvc) PVCAutoscalerIncreaseAnnotation in
  r ← call (CallConvertPercentageToBytes value (Quantity.Value capacity) DefaultIncrease)
           (convertPercentageToBytes value (Quantity.Value capacity) DefaultIncrease);
  increase ← unless_err r (λ err,
    log Error [("pvcId", VString pvcId); ("error", VError err)]
      "failed to convert increase annotation" ;;
    continue);

  match index_ok (Annotations pvc) PVCAutoscalerPreviousCapacityAnnotation with
  | Some previousCapacity =>
      parsedPreviousCapacity ← unless_none (Strconv.ParseInt previousCapacity) (
        log Error [("error", VError (Strconv.ParseInt_error previousCapacity))]
          "failed to parse 'previous_capacity' annotation" ;;
        continue);
      when (parsedPreviousCapacity =? pvcCurrentCapacityBytes) (
        log Info [("id", VString pvcId)] "pvc is still waiting to accept the resize" ;;
        continue)
  | None => mret tt
  end ;;

  r ← call (CallGetPVCStorageCeiling pvc) (getPVCStorageCeiling pvc);
  ceiling ← unless_err r (λ err,
    log Error [("pvcId", VString pvcId); ("error", VError err)]
      "failed to fetch storage ceiling" ;;
    continue);
  when (0 <=? Quantity.Cmp capacity ceiling) (
    log Info [("pvcId", VString pvcId); ("limit", VQuantity ceiling)]
      "volume storage limit reached" ;;
    continue) ;;

  let currentUsedBytes := VolumeUsedBytes metrics in
  when (threshold <=? currentUsedBytes) (
    log Info [("id", VString pvcId)] "pvc usage bigger than threshold" ;;

    let newStorage := newStorageFor capacity increase ceiling in

    err ← updatePVCWithNewStorageSize pvc pvcCurrentCapacityBytes newStorage;
    if_err err (λ err,
      log Error [("pvcId", VString pvcId); ("error", VError err)] "failed to resize pvc") ;;

    log Info [("pvcId", VString pvcId); ("old", VInt (Quantity.Value capacity));
              ("new", VInt (Quantity.Value newStorage))]
      "pvc resized").

(** [reconcile]: the returned [error] ([None] is [nil]). *)
Definition reconcile : M (option Err) :=
  r ← call CallGetAnnotatedPVCs getAnnotatedPVCs;
  match r with
  | Failed err => mret (Some ("could not get PersistentVolumeClaims: " +:+ err))
  | Ok pvcl =>
      log Debug [("count", VInt (Size pvcl))] "fetched annotated pvcs" ;;

      r ← call CallFetchPVCsMetrics FetchPVCsMetrics;
      match r with
      | Failed err =>
          log Error [("error", VError err)]
            "could not fetch the PersistentVolumeClaims metrics" ;;
          mret None
      | Ok pvcsMetrics =>
          log Debug [] "fetched pvc metrics" ;;

          for_range (Items pvcl) (reconcile_pvc pvcsMetrics) ;;

          mret None
      end
  end.

End Reconcile.

(** ** What a run shows *)

(** The claims sent to the API server's [Update], in order. *)
Definition updates (t : list Event) : list PersistentVolumeClaim :=
  omap (λ e, match e with CallUpdate _ pvc => Some pvc | _ => None end) t.

(** The arguments of the calls to [convertPercentageToBytes], in order. *)
Definition conversions (t : list Event) : list (string * Z * string) :=
  omap (λ e, match e with
             | CallConvertPercentageToBytes value capacity defaultValue =>
                 Some (value, capacity, defaultValue)
             | _ => None
             end) t.

(** The messages logged, in order. *)
Definition messages (t : list Event) : list string :=
  omap (λ e, match e with Log entry => Some (message entry) | _ => None end) t.

(** The storage request of a claim. *)
Definition requested (pvc : PersistentVolumeClaim) : option Z :=
  index_ok (Requests (Resources (Spec pvc))) ResourceStorage.

(** ** A concrete cluster

    Instances of the collaborators for the scenarios below. *)

Module Sample.

Definition GiB : Z := 2 ^ 30.

Fixpoint strip_percent (s : string) : option string :=
  match s with
  | EmptyString => None
  | String c EmptyString => if Ascii.eqb c "%" then Some EmptyString else None
  | String c rest => String c <$> strip_percent rest
  end.

Fixpoint split_digits (s : string) : string * string :=
  match s with
  | EmptyString => (EmptyString, EmptyString)
  | String c rest =>
      match Strconv.digit_of_ascii c with
      | Some _ => let '(ds, suffix) := split_digits rest in (String c ds, suffix)
      | None => (EmptyString, s)
      end
  end.

Definition suffix_multiplier (suffix : string) : option Z :=
  match suffix with
  | EmptyString => Some 1
  | "Ki" => Some (2 ^ 10)
  | "Mi" => Some (2 ^ 20)
  | "Gi" => Some (2 ^ 30)
  | "Ti" => Some (2 ^ 40)
  | "Pi" => Some (2 ^ 50)
  | "Ei" => Some (2 ^ 60)
  | "k" => Some (10 ^ 3)
  | "M" => Some (10 ^ 6)
  | "G" => Some (10 ^ 9)
  | "T" => Some (10 ^ 12)
  | "P" => Some (10 ^ 15)
  | "E" => Some (10 ^ 18)
  | _ => None
  end.

(** Modelled from the spec: an absolute quantity string such as
    ["100Gi"], a decimal count with an optional unit suffix. The
    parser of quantities is not part of [cmd/reconcile.go]. *)
Definition ParseQuantity (s : string) : Result Z :=
  let '(ds, suffix) := split_digits s in
  match Strconv.parse_unsigned ds, suffix_multiplier suffix with
  | Some n, Some k => Ok (n * k)
  | _, _ => Failed "quantities must match the regular expression"
  end.

(** Modelled from the spec: [convertPercentageToBytes] is declared
    outside [cmd/reconcile.go]. A value is a percentage string
    (["80%"]) read against the reference value as
    [percentage * reference / 100], or an absolute quantity string; an
    absent annotation takes the default; a non-numeric value, a
    percentage outside (0, 100], a malformed quantity or a quantity
    that is not above zero is an error. *)
Definition convertPercentageToBytes (value : string) (capacity : Z)
    (defaultValue : string) : Result Z :=
  let value := if String.eqb value EmptyString then defaultValue else value in
  match strip_percent value with
  | Some ds =>
      match Strconv.parse_unsigned ds with
      | Some perc =>
          if (0 <? perc) && (perc <=? 100) then Ok (Z.quot (perc * capacity) 100)
          else Failed "annotation value should be between 0% and 100%"
      | None => Failed "annotation value is not a number"
      end
  | None =>
      match ParseQuantity value with
      | Ok bytes =>
          if 0 <? bytes then Ok bytes
          else Failed "annotation value should be above zero"
      | Failed err => Failed err
      end
  end.

(** Modelled from the spec: [getPVCStorageCeiling] is declared outside
    [cmd/reconcile.go]. The ceiling annotation, if present, is parsed
    as an absolute quantity string; if absent there is no ceiling,
    which among [int64] sizes is the largest one. *)
Definition getPVCStorageCeiling (pvc : PersistentVolumeClaim) : Result Z :=
  match index_ok (Annotations pvc) PVCAutoscalerCeilingAnnotation with
  | Some annotation => ParseQuantity annotation
  | None => Ok Int64.max_int
  end.

(** Modelled from the spec: [isPVCResizable] is declared outside
    [cmd/reconcile.go]; a claim whose lifecycle phase is not the bound
    one is not resizable. *)
Definition isPVCResizable (pvc : PersistentVolumeClaim) : option Err :=
  if String.eqb (Phase (Status pvc)) "Bound" then None
  else Some "the PersistentVolumeClaim is not bound".

(** Modelled from the spec: [isStorageClassExpandable] is declared
    outside [cmd/reconcile.go]; it answers whether the named storage
    class permits live expansion, or fails when the lookup does. *)
Definition isStorageClassExpandable (classes : gmap string bool)
    (storageClassName : string) : Result bool :=
  match classes !! storageClassName with
  | Some allowVolumeExpansion => Ok allowVolumeExpansion
  | None => Failed "storageclass not found"
  end.

Definition classes : gmap string bool :=
  {[ "standard" := true; "local" := false ]}.

(** A cluster whose API server accepts every update. *)
Definition cluster (pvcl : Result PersistentVolumeClaimList)
    (metrics : Result (gmap (string * string) PVCMetrics)) : Collaborators :=
  Build_Collaborators pvcl metrics (isStorageClassExpandable classes) isPVCResizable
    convertPercentageToBytes getPVCStorageCeiling (λ _, None).

(** A bound claim [default/name] of the given class, annotations,
    request and capacity. *)
Definition claim_named (name : string) (class : option string)
    (annotations : gmap string string) (capacity : gmap string Z)
  : PersistentVolumeClaim :=
  {| Namespace := "default";
     Name := name;
     Annotations := Some annotations;
     Spec := {| StorageClassName := class;
                Resources := {| Limits := None;
                                Requests := Some capacity |} |};
     Status := {| Phase := "Bound"; Capacity := capacity |} |}.

Definition claim := claim_named "data".

Definition observed_for (name : string) (used capacity : Z)
  : gmap (string * string) PVCMetrics :=
  {[ ("default", name) :=
       {| VolumeUsedBytes := used; VolumeCapacityBytes := capacity |} ]}.

Definition observed := observed_for "data".

(** The cluster used where the list and the metrics fetch play no role. *)
Definition world : Collaborators := cluster (Failed "unused") (Failed "unused").

End Sample.

(** ** The order of the checks

    The checks of the loop body, each stated on the claim alone (what
    the collaborators answer for it), and the order in which the body
    makes them. The body is compared with the first check of this list
    that stops the claim. *)

Inductive Check :=
| NilStorageClass
| StorageClassLookup
| StorageClassExpandable
| ClaimResizable
| MetricsPresent
| ThresholdConversion
| CapacitySet
| CapacityNonZero
| IncreaseConversion
| PreviousCapacityParse
| ResizePending
| CeilingFetch
| CeilingReached.

Definition pipeline : list Check :=
  [ NilStorageClass; StorageClassLookup; StorageClassExpandable; ClaimResizable;
    MetricsPresent; ThresholdConversion; CapacitySet; CapacityNonZero;
    IncreaseConversion; PreviousCapacityParse; ResizePending; CeilingFetch;
    CeilingReached ].




Definition is_failed {A} (r : Result A) : bool :=
  match r with
  | Ok _ => false
  | Failed _ => true
  end.

Section Checks.

Context `{!Collaborators}.
Variable pvcsMetrics : gmap (string * string) PVCMetrics.
Variable pvc : PersistentVolumeClaim.

Definition threshold_call (m : PVCMetrics) : string * Z * string :=
  (index_string (Annotations pvc) PVCAutoscalerThresholdAnnotation,
   VolumeCapacityBytes m, DefaultThreshold).

Definition increase_call (capacity : Z) : string * Z * string :=
  (index_string (Annotations pvc) PVCAutoscalerIncreaseAnnotation,
   Quantity.Value capacity, DefaultIncrease).

Definition convert (c : string * Z * string) : Result Z :=
  convertPercentageToBytes c.1.1 c.1.2 c.2.

(** [stops c]: the claim does not pass check [c]. *)
Definition stops (c : Check) : bool :=
  match c with
  | NilStorageClass =>
      match StorageClassName (Spec pvc) with
      | Some _ => false
      | None => true
      end
  | StorageClassLookup =>
      match StorageClassName (Spec pvc) with
      | Some name => is_failed (isStorageClassExpandable name)
      | None => false
      end
  | StorageClassExpandable =>
      match StorageClassName (Spec pvc) with
      | Some name =>
          match isStorageClassExpandable name with
          | Ok isExpandable => negb isExpandable
          | Failed _ => false
          end
      | None => false
      end
  | ClaimResizable =>
      match isPVCResizable pvc with
      | Some _ => true
      | None => false
      end
  | MetricsPresent =>
      match pvcsMetrics !! (Namespace pvc, Name pvc) with
      | Some _ => false
      | None => true
      end
  | ThresholdConversion =>
      match pvcsMetrics !! (Namespace pvc, Name pvc) with
      | Some m => is_failed (convert (threshold_call m))
      | None => false
      end
  | CapacitySet =>
      match Capacity (Status pvc) !! ResourceStorage with
      | Some _ => false
      | None => true
      end
  | CapacityNonZero =>
      match Capacity (Status pvc) !! ResourceStorage with
      | Some capacity => Quantity.Value capacity =? 0
      | None => false
      end
  | IncreaseConversion =>
      match Capacity (Status pvc) !! ResourceStorage with
      | Some capacity => is_failed (convert (increase_call capacity))
      | None => false
      end
  | PreviousCapacityParse =>
      match index_ok (Annotations pvc) PVCAutoscalerPreviousCapacityAnnotation with
      | Some previousCapacity =>
          match Strconv.ParseInt previousCapacity with
          | Some _ => false
          | None => true
          end
      | None => false
      end
  | ResizePending =>
      match index_ok (Annotations pvc) PVCAutoscalerPreviousCapacityAnnotation,
            pvcsMetrics !! (Namespace pvc, Name pvc) with
      | Some previousCapacity, Some m =>
          match Strconv.ParseInt previousCapacity with
          | Some parsedPreviousCapacity => parsedPreviousCapacity =? VolumeCapacityBytes m
          | None => false
          end
      | _, _ => false
      end
  | CeilingFetch =>
      is_failed (getPVCStorageCeiling pvc)
  | CeilingReached =>
      match Capacity (Status pvc) !! ResourceStorage, getPVCStorageCeiling pvc with
      | Some capacity, Ok ceiling => 0 <=? Quantity.Cmp capacity ceiling
      | _, _ => false
      end
  end.

(** The call to a collaborator that check [c] makes, if any. *)
Definition call_of (c : Check) : option Event :=
  match c with
  | StorageClassLookup =>
      CallIsStorageClassExpandable <$> StorageClassName (Spec pvc)
  | ClaimResizable =>
      Some (CallIsPVCResizable pvc)
  | ThresholdConversion =>
      (λ m, let c := threshold_call m in CallConvertPercentageToBytes c.1.1 c.1.2 c.2)
        <$> pvcsMetrics !! (Namespace pvc, Name pvc)
  | IncreaseConversion =>
      (λ q, let c := increase_call q in CallConvertPercentageToBytes c.1.1 c.1.2 c.2)
        <$> Capacity (Status pvc) !! ResourceStorage
  | CeilingFetch =>
      Some (CallGetPVCStorageCeiling pvc)
  | _ => None
  end.

(** The message logged when check [c] stops the claim; the nil
    storage class stops it with a panic, after the first message. *)
Definition message_of (c : Check) : string :=
  match c with
  | NilStorageClass => "processing pvc"
  | StorageClassLookup => "failed getting StorageClass"
  | StorageClassExpandable => "the StorageClass does not allow volume expansion"
  | ClaimResizable => "the PersistentVolumeClaim %s is not resizable: %v"
  | MetricsPresent => "could not fetch the metrics for pvc"
  | ThresholdConversion => "failed to convert threshold annotation"
  | CapacitySet => "skip pvc because its capacity is not set yet"
  | CapacityNonZero => "skip pvc because its capacity is zero"
  | IncreaseConversion => "failed to convert increase annotation"
  | PreviousCapacityParse => "failed to parse 'previous_capacity' annotation"
  | ResizePending => "pvc is still waiting to accept the resize"
  | CeilingFetch => "failed to fetch storage ceiling"
  | CeilingReached => "volume storage limit reached"
  end.

Definition ending_of (c : Check) : Flow unit :=
  match c with
  | NilStorageClass => Panic "invalid memory address or nil pointer dereference"
  | _ => Continue
  end.

(** The first check of the pipeline that stops the claim. *)
Definition first_stop : option Check := find stops pipeline.

End Checks.

(** The place of a check in the pipeline. *)
Definition position (c : Check) : nat :=
  match c with
  | NilStorageClass => 0
  | StorageClassLookup => 1
  | StorageClassExpandable => 2
  | ClaimResizable => 3
  | MetricsPresent => 4
  | ThresholdConversion => 5
  | CapacitySet => 6
  | CapacityNonZero => 7
  | IncreaseConversion => 8
  | PreviousCapacityParse => 9
  | ResizePending => 10
  | CeilingFetch => 11
  | CeilingReached => 12
  end.

(** The checks of the pipeline up to and including [c]. *)
Definition through (c : Check) : list Check := take (S (position c)) pipeline.

(** The calls to collaborators in a trace, in order. *)
Definition calls (t : list Event) : list Event :=
  omap (λ e, match e with Log _ => None | _ => Some e end) t.

(** The claim that [updatePVCWithNewStorageSize] sends to [Update]: the
    storage request and the previous-capacity annotation are set. *)
Definition resized (pvc : PersistentVolumeClaim) (requests : gmap string Z)
    (annotations : gmap string string) (capacityBytes newStorage : Z)
  : PersistentVolumeClaim :=
  with_Annotations
    (with_Requests pvc (Some (<[ResourceStorage := newStorage]> requests)))
    (Some (<[PVCAutoscalerPreviousCapacityAnnotation := Strconv.FormatInt capacityBytes]>
             annotations)).

(** How a stopped body ends: by the fault at the nil storage class, or
    by [continue]. *)
Definition ending (pvc : PersistentVolumeClaim) : Flow unit :=
  match StorageClassName (Spec pvc) with
  | Some _ => Continue
  | None => Panic "invalid memory address or nil pointer dereference"
  end.

(** The metrics report [parsed] as the capacity of the claim, which they
    know by namespace and name. *)
Definition observed_capacity_is (parsed : Z) (pvc : PersistentVolumeClaim)
    (metrics : gmap (string * string) PVCMetrics) : Prop :=
  ∀ m, metrics !! (Namespace pvc, Name pvc) = Some m → VolumeCapacityBytes m = parsed.

(** One reference value serves every conversion of the run. *)
Definition same_reference (t : list Event) : Prop :=
  ∃ reference, ∀ call, call ∈ conversions t → call.1.2 = reference.


(** ** Repeated cycles on one claim

    Between two cycles the claim is what the API server stores: the
    object of the last accepted [Update], or the claim as it was. Each
    cycle comes with its own collaborators and metrics. *)

Definition stored_after `{!Collaborators} (pvcsMetrics : gmap (string * string) PVCMetrics)
    (pvc : PersistentVolumeClaim) : PersistentVolumeClaim :=
  match updates (reconcile_pvc pvcsMetrics pvc).1 with
  | pvc' :: _ =>
      match Update pvc' with
      | None => pvc'
      | Some _ => pvc
      end
  | [] => pvc
  end.

(** The updates requested over the cycles and the claim stored at the end. *)
Fixpoint cycles (observations : list (Collaborators * gmap (string * string) PVCMetrics))
    (pvc : PersistentVolumeClaim) : list PersistentVolumeClaim * PersistentVolumeClaim :=
  match observations with
  | [] => ([], pvc)
  | (world, pvcsMetrics) :: rest =>
      let requested := updates (@reconcile_pvc world pvcsMetrics pvc).1 in
      let '(later, final) := cycles rest (@stored_after world pvcsMetrics pvc) in
      ((requested ++ later)%list, final)
  end.

(** The oscillation guard lets the claim through: it has no marker, or
    its marker parses to another number than the capacity that the
    metrics report. *)
Definition guard_passes (pvc : PersistentVolumeClaim) (m : PVCMetrics) : Prop :=
  match index_ok (Annotations pvc) PVCAutoscalerPreviousCapacityAnnotation with
  | Some previousCapacity =>
      ∃ parsed, Strconv.ParseInt previousCapacity = Some parsed ∧
                parsed ≠ VolumeCapacityBytes m
  | None => True
  end.

(** A cluster like [Sample.world] whose API server refuses every update. *)
Definition refusing_world : Collaborators :=
  Build_Collaborators (Failed "unused") (Failed "unused")
    (Sample.isStorageClassExpandable Sample.classes) Sample.isPVCResizable
    Sample.convertPercentageToBytes Sample.getPVCStorageCeiling
    (λ _, Some "the object has been modified").

(** A claim on which the body cannot fault: its storage class name and
    its maps of requests and annotations are set. *)
Definition well_formed (pvc : PersistentVolumeClaim) : Prop :=
  is_Some (StorageClassName (Spec pvc)) ∧
  is_Some (Requests (Resources (Spec pvc))) ∧
  is_Some (Annotations pvc).

(** The log entries of a trace, in order. *)
Definition entries (t : list Event) : list Entry :=
  omap (λ e, match e with Log entry => Some entry | _ => None end) t.


(** * Properties *)

(** ** Sanity checks of the embedding *)

Example FormatInt_10GiB : Strconv.FormatInt 10737418240 = "10737418240".
Proof. reflexivity. Qed.

Example ParseInt_samples :
  Strconv.ParseInt "10737418240" = Some 10737418240 /\
  Strconv.ParseInt "-42" = Some (-42) /\
  Strconv.ParseInt EmptyString = None /\
  Strconv.ParseInt "+" = None /\
  Strconv.ParseInt "10Gi" = None /\
  Strconv.ParseInt "9223372036854775808" = None /\
  Strconv.ParseInt "-9223372036854775808" = Some (-9223372036854775808).
Proof. repeat split; reflexivity. Qed.

(** The integer model of [float64(x)] agrees with the machine's
    conversion on the values around the 53-bit boundary. *)
Example float64_of_int64_hardware :
  Forall (fun x => Float64.hardware_of_int64 x = Some (Float64.float64_of_int64 x))
    [1; 12884901888; 2 ^ 53 - 1; 2 ^ 53; 2 ^ 53 + 1; 2 ^ 53 + 2; 2 ^ 53 + 3;
     2 ^ 54 + 2; 2 ^ 54 + 6; 2 ^ 62 + 511; 2 ^ 62 + 513; 7378697630772310836;
     2 ^ 63 - 1]%Z.
Proof. repeat (constructor; [vm_compute; reflexivity |]). constructor. Qed.

(** Scenario A: 10 GiB, 9 GiB used, defaults, no ceiling: resize to 12 GiB. *)
Example scenario_A :
  let pvc := Sample.claim (Some "standard") ∅ {[ ResourceStorage := 10 * Sample.GiB ]} in
  let t := (@reconcile_pvc Sample.world
              (Sample.observed (9 * Sample.GiB) (10 * Sample.GiB)) pvc).1 in
  requested <$> updates t = [Some (12 * Sample.GiB)].
Proof. vm_compute. reflexivity. Qed.

(** Scenario B: the 12 GiB target is clamped to the 11 GiB ceiling. *)
Example scenario_B :
  let pvc := Sample.claim (Some "standard") {[ PVCAutoscalerCeilingAnnotation := "11Gi" ]}
               {[ ResourceStorage := 10 * Sample.GiB ]} in
  let t := (@reconcile_pvc Sample.world
              (Sample.observed (9 * Sample.GiB) (10 * Sample.GiB)) pvc).1 in
  requested <$> updates t = [Some (11 * Sample.GiB)].
Proof. vm_compute. reflexivity. Qed.

(** Scenario C: the marker equals the observed capacity: pending. *)
Example scenario_C :
  let pvc := Sample.claim (Some "standard")
               {[ PVCAutoscalerPreviousCapacityAnnotation := "10737418240" ]}
               {[ ResourceStorage := 10 * Sample.GiB ]} in
  let r := @reconcile_pvc Sample.world
              (Sample.observed (10 * Sample.GiB) (10 * Sample.GiB)) pvc in
  updates r.1 = [] ∧ r.2 = Continue ∧
  last (messages r.1) = Some "pvc is still waiting to accept the resize".
Proof. vm_compute. repeat split; reflexivity. Qed.

(** Scenario D: 5 GiB used of 10 GiB is below the threshold. *)
Example scenario_D :
  let pvc := Sample.claim (Some "standard") ∅ {[ ResourceStorage := 10 * Sample.GiB ]} in
  let r := @reconcile_pvc Sample.world
              (Sample.observed (5 * Sample.GiB) (10 * Sample.GiB)) pvc in
  updates r.1 = [] ∧ r.2 = Next tt.
Proof. vm_compute. split; reflexivity. Qed.

(** Scenario E: the storage class forbids expansion; nothing is converted. *)
Example scenario_E :
  let pvc := Sample.claim (Some "local") ∅ {[ ResourceStorage := 10 * Sample.GiB ]} in
  let r := @reconcile_pvc Sample.world
              (Sample.observed (9 * Sample.GiB) (10 * Sample.GiB)) pvc in
  updates r.1 = [] ∧ conversions r.1 = [] ∧ r.2 = Continue.
Proof. vm_compute. repeat split; reflexivity. Qed.


(** ** Machine arithmetic *)

Lemma wrap64_in_range (z : Z) : Int64.in_range z → Int64.wrap64 z = z.
Proof.
  unfold Int64.in_range, Int64.min_int, Int64.max_int, Int64.wrap64. intros Hz.
  rewrite Z.mod_small; lia.
Qed.

Lemma wrap64_divide (k z : Z) : (k | 2 ^ 63) → (k | z) → (k | Int64.wrap64 z).
Proof.
  intros Hk Hz. unfold Int64.wrap64.
  assert (Hk64 : (k | 2 ^ 64)).
  { change (2 ^ 64) with (2 * 2 ^ 63). by apply Z.divide_mul_r. }
  rewrite Z.mod_eq by lia.
  apply Z.divide_sub_r; [| done].
  apply Z.divide_sub_r; [by apply Z.divide_add_r |].
  by apply Z.divide_mul_l.
Qed.

(** Up to 2^53 in magnitude every integer is a [float64]. *)
Lemma float64_of_int64_exact (x : Z) :
  Z.abs x <= 2 ^ 53 → Float64.float64_of_int64 x = x.
Proof.
  intros Hx. unfold Float64.float64_of_int64.
  destruct (Z.ltb_spec (Z.abs x) (2 ^ 53)) as [| Hge]; [done |].
  assert (Habs : Z.abs x = 2 ^ 53) by lia.
  rewrite Habs.
  destruct (Z.abs_eq_or_opp x) as [Hx' | Hx']; rewrite Hx' in Habs.
  - rewrite Habs. reflexivity.
  - assert (x = - 2 ^ 53) as -> by lia. reflexivity.
Qed.

Lemma ceil_div_GiB_bounds (f : Z) :
  (Float64.ceil_div_GiB f - 1) * 2 ^ 30 < f <= Float64.ceil_div_GiB f * 2 ^ 30.
Proof.
  unfold Float64.ceil_div_GiB.
  pose proof (Z.div_mod (- f) (2 ^ 30) ltac:(lia)) as Hdm.
  pose proof (Z.mod_pos_bound (- f) (2 ^ 30) ltac:(lia)) as Hm.
  lia.
Qed.

(** The result of the rounding is a whole number of GiB, whatever the
    operand. *)
Lemma roundUpToGiB_divide (raw : Z) : (2 ^ 30 | roundUpToGiB raw).
Proof.
  unfold roundUpToGiB, Int64.shl. apply wrap64_divide.
  - exists (2 ^ 33). reflexivity.
  - rewrite Z.shiftl_mul_pow2 by lia. by apply Z.divide_mul_r.
Qed.

(** Where the operand is exactly representable, the rounding is the
    ceiling to the next GiB. *)
Lemma roundUpToGiB_exact (raw : Z) :
  Z.abs raw <= 2 ^ 53 →
  roundUpToGiB raw = Float64.ceil_div_GiB raw * 2 ^ 30.
Proof.
  intros Hraw. unfold roundUpToGiB, Int64.shl.
  rewrite float64_of_int64_exact by done.
  rewrite Z.shiftl_mul_pow2 by lia.
  pose proof (ceil_div_GiB_bounds raw).
  apply wrap64_in_range. unfold Int64.in_range, Int64.min_int, Int64.max_int. lia.
Qed.

Lemma roundUpToGiB_least (raw : Z) :
  Z.abs raw <= 2 ^ 53 →
  (2 ^ 30 | roundUpToGiB raw) ∧ raw <= roundUpToGiB raw ∧
  ∀ m, (2 ^ 30 | m) → raw <= m → roundUpToGiB raw <= m.
Proof.
  intros Hraw. split; [apply roundUpToGiB_divide |].
  rewrite roundUpToGiB_exact by done.
  pose proof (ceil_div_GiB_bounds raw) as Hb.
  split; [lia |].
  intros m [k ->] Hm. nia.
Qed.

(** Growth of a claim below its ceiling, for sizes that [float64] holds
    exactly: the new size is above the capacity and at most the ceiling. *)
Lemma newStorageFor_grows (capacity increase ceiling : Z) :
  0 <= capacity → 0 < increase → capacity + increase <= 2 ^ 53 →
  capacity < ceiling →
  capacity < newStorageFor capacity increase ceiling <= ceiling.
Proof.
  intros Hc Hi Hsum Hceil. unfold newStorageFor, Quantity.Value, Quantity.NewQuantity, Int64.add.
  rewrite wrap64_in_range
    by (unfold Int64.in_range, Int64.min_int, Int64.max_int; lia).
  pose proof (roundUpToGiB_least (capacity + increase) ltac:(lia)) as (_ & Hle & _).
  unfold Quantity.Cmp.
  destruct (Z.compare_spec (roundUpToGiB (capacity + increase)) ceiling); simpl; lia.
Qed.

(** The new size never exceeds the ceiling. *)
Lemma newStorageFor_le_ceiling (capacity increase ceiling : Z) :
  newStorageFor capacity increase ceiling <= ceiling.
Proof.
  unfold newStorageFor, Quantity.Cmp, Quantity.NewQuantity.
  destruct (Z.compare_spec (roundUpToGiB (Int64.add (Quantity.Value capacity) increase)) ceiling);
    simpl; lia.
Qed.

(** ** Decimal text of an [int64] *)

Lemma digit_of_ascii_of_digit (d : Z) :
  0 <= d < 10 → Strconv.digit_of_ascii (Strconv.ascii_of_digit d) = Some d.
Proof.
  intros Hd.
  assert (Hcases : d = 0 ∨ d = 1 ∨ d = 2 ∨ d = 3 ∨ d = 4 ∨ d = 5 ∨ d = 6 ∨ d = 7 ∨ d = 8 ∨ d = 9)
    by lia.
  repeat (destruct Hcases as [-> | Hcases]; [reflexivity |]). by subst d.
Qed.

Lemma parse_format_digits (fuel : nat) (n : Z) :
  0 <= n < 10 ^ Z.of_nat (S fuel) →
  ∃ k, 0 <= k ∧ ∀ acc a,
    Strconv.parse_digits (Strconv.format_digits fuel n acc) a
    = Strconv.parse_digits acc (a * 10 ^ k + n).
Proof.
  revert n. induction fuel as [| fuel IH]; intros n Hn.
  - exists 1. split; [lia |]. intros acc a. simpl.
    change (10 ^ Z.of_nat 1) with 10 in Hn.
    rewrite Z.mod_small by lia. rewrite digit_of_ascii_of_digit by lia.
    f_equal. lia.
  - simpl Strconv.format_digits. destruct (Z.ltb_spec n 10) as [Hlt | Hge].
    + exists 1. split; [lia |]. intros acc a. simpl.
      rewrite Z.mod_small by lia. rewrite digit_of_ascii_of_digit by lia.
      f_equal. lia.
    + destruct (IH (n / 10)) as (k & Hk & Hparse).
      { split; [apply Z.div_pos; lia |].
        apply Z.div_lt_upper_bound; [lia |].
        replace (Z.of_nat (S (S fuel))) with (Z.succ (Z.of_nat (S fuel))) in Hn by lia.
        rewrite Z.pow_succ_r in Hn by lia. lia. }
      exists (k + 1). split; [lia |]. intros acc a.
      rewrite Hparse. simpl Strconv.parse_digits.
      rewrite digit_of_ascii_of_digit by (apply Z.mod_pos_bound; lia).
      f_equal. rewrite Z.pow_add_r by lia.
      pose proof (Z.div_mod n 10 ltac:(lia)). lia.
Qed.

Lemma format_digits_head (fuel : nat) (n : Z) (acc : string) :
  0 <= n →
  ∃ c rest d, Strconv.format_digits fuel n acc = String c rest ∧
              Strconv.digit_of_ascii c = Some d.
Proof.
  revert n acc. induction fuel as [| fuel IH]; intros n acc Hn; simpl.
  - eexists _, _, _. split; [done |].
    apply digit_of_ascii_of_digit, Z.mod_pos_bound. lia.
  - destruct (n <? 10).
    + eexists _, _, _. split; [done |].
      apply digit_of_ascii_of_digit, Z.mod_pos_bound. lia.
    + apply IH, Z.div_pos; lia.
Qed.

Lemma ParseInt_unsigned (c : ascii) (rest : string) (d : Z) :
  Strconv.digit_of_ascii c = Some d →
  Strconv.ParseInt (String c rest)
  = match Strconv.parse_digits (String c rest) 0 with
    | Some v => if Int64.in_rangeb v then Some v else None
    | None => None
    end.
Proof.
  intros Hd. unfold Strconv.ParseInt.
  destruct c as [[] [] [] [] [] [] [] []]; try reflexivity; vm_compute in Hd; discriminate.
Qed.

(** What [FormatInt] writes, [ParseInt] reads back. *)
Lemma ParseInt_FormatInt (n : Z) :
  Int64.in_range n → Strconv.ParseInt (Strconv.FormatInt n) = Some n.
Proof.
  unfold Int64.in_range, Int64.min_int, Int64.max_int. intros Hn.
  unfold Strconv.FormatInt. destruct (Z.ltb_spec n 0) as [Hneg | Hpos].
  - destruct (parse_format_digits 19 (- n)) as (k & _ & Hparse).
    { change (10 ^ Z.of_nat 20) with 100000000000000000000. lia. }
    destruct (format_digits_head 19 (- n) EmptyString ltac:(lia)) as (c & rest & d & Hfmt & _).
    unfold Strconv.ParseInt, Strconv.parse_unsigned.
    specialize (Hparse EmptyString 0). rewrite Hfmt in *. rewrite Hparse. simpl.
    replace (- (0 * 10 ^ k + - n)) with n by lia.
    unfold Int64.in_rangeb, Int64.min_int, Int64.max_int.
    destruct (Z.leb_spec (- 2 ^ 63) n), (Z.leb_spec n (2 ^ 63 - 1)); simpl; first [done | lia].
  - destruct (parse_format_digits 19 n) as (k & _ & Hparse).
    { change (10 ^ Z.of_nat 20) with 100000000000000000000. lia. }
    destruct (format_digits_head 19 n EmptyString ltac:(lia)) as (c & rest & d & Hfmt & Hd).
    specialize (Hparse EmptyString 0). rewrite Hfmt in *.
    rewrite (ParseInt_unsigned c rest d Hd), Hparse. simpl.
    replace (0 * 10 ^ k + n) with n by lia.
    unfold Int64.in_rangeb, Int64.min_int, Int64.max_int.
    destruct (Z.leb_spec (- 2 ^ 63) n), (Z.leb_spec n (2 ^ 63 - 1)); simpl; first [done | lia].
Qed.

(** ** Running the loop body *)

Ltac unfold_M :=
  unfold deref, unless_err, unless_none, when, if_err, assign, call, log, emit,
    continue, panic in *;
  unfold mbind, M_bind, mret, M_ret in *.

Ltac simp :=
  cbn -[Z.eqb Z.leb Z.ltb Strconv.ParseInt Strconv.FormatInt newStorageFor
        Quantity.Cmp Quantity.Value] in *.

Ltac use_equations :=
  repeat match goal with
         | H : ?x = _ |- context [?x] => rewrite H
         end.

Ltac stopped := intros [= <-]; simp; use_equations; simp; repeat split; reflexivity.

Ltac first_stop_step x c :=
  destruct (stops _ _ x) eqn:?;
  [ exists x; split; [reflexivity | destruct c; simpl position; first [lia | congruence]] |].

(** The body stops at the first check of the pipeline that the claim
    does not pass: it has made the calls of the checks up to that one
    and no other, its last message is that check's, and no update is
    requested. *)
Lemma reconcile_pvc_stop `{!Collaborators} metrics pvc c :
  first_stop metrics pvc = Some c →
  calls (reconcile_pvc metrics pvc).1 = omap (call_of metrics pvc) (through c) ∧
  last (messages (reconcile_pvc metrics pvc).1) = Some (message_of c) ∧
  (reconcile_pvc metrics pvc).2 = ending_of c ∧
  updates (reconcile_pvc metrics pvc).1 = [].
Proof.
  unfold first_stop, pipeline, reconcile_pvc, updatePVCWithNewStorageSize.
  unfold_M. simp.
  destruct (StorageClassName (Spec pvc)) as [name |] eqn:?; simp; [| stopped].
  destruct (isStorageClassExpandable name) as [[] | ?] eqn:?; simp; [| stopped | stopped].
  destruct (isPVCResizable pvc) eqn:?; simp; [stopped |].
  destruct (metrics !! (Namespace pvc, Name pvc)) as [m |] eqn:?; simp; [| stopped].
  unfold convert, threshold_call, increase_call; simp.
  destruct (convertPercentageToBytes _ (VolumeCapacityBytes m) _) as [threshold |] eqn:?;
    simp; [| stopped].
  destruct (Capacity (Status pvc) !! ResourceStorage) as [capacity |] eqn:?; simp; [| stopped].
  destruct (Quantity.Value capacity =? 0) eqn:?; simp; [stopped |].
  destruct (convertPercentageToBytes _ (Quantity.Value capacity) _) as [increase |] eqn:?;
    simp; [| stopped].
  destruct (index_ok (Annotations pvc) PVCAutoscalerPreviousCapacityAnnotation)
    as [previousCapacity |] eqn:?; simp.
  - destruct (Strconv.ParseInt previousCapacity) as [parsed |] eqn:?; simp; [| stopped].
    destruct (parsed =? VolumeCapacityBytes m) eqn:?; simp; [stopped |].
    destruct (getPVCStorageCeiling pvc) as [ceiling |] eqn:?; simp; [| stopped].
    destruct (0 <=? Quantity.Cmp capacity ceiling) eqn:?; simp; [stopped | done].
  - destruct (getPVCStorageCeiling pvc) as [ceiling |] eqn:?; simp; [| stopped].
    destruct (0 <=? Quantity.Cmp capacity ceiling) eqn:?; simp; [stopped | done].
Qed.

(** A claim that passes every check reaches the comparison of its usage
    with the threshold; above the threshold one update is requested,
    unless a map of the claim is [nil]. *)
Lemma reconcile_pvc_growth `{!Collaborators} metrics pvc :
  first_stop metrics pvc = None →
  ∃ m capacity threshold increase ceiling,
    metrics !! (Namespace pvc, Name pvc) = Some m ∧
    Capacity (Status pvc) !! ResourceStorage = Some capacity ∧
    convert (threshold_call pvc m) = Ok threshold ∧
    convert (increase_call pvc capacity) = Ok increase ∧
    getPVCStorageCeiling pvc = Ok ceiling ∧
    Quantity.Value capacity ≠ 0 ∧
    capacity < ceiling ∧
    conversions (reconcile_pvc metrics pvc).1
      = [threshold_call pvc m; increase_call pvc capacity] ∧
    calls (reconcile_pvc metrics pvc).1
      = (omap (call_of metrics pvc) pipeline
         ++ ((λ p, CallUpdate (Namespace p) p) <$> updates (reconcile_pvc metrics pvc).1))%list ∧
    if threshold <=? VolumeUsedBytes m then
      match Requests (Resources (Spec pvc)), Annotations pvc with
      | Some requests, Some annotations =>
          updates (reconcile_pvc metrics pvc).1
            = [resized pvc requests annotations (VolumeCapacityBytes m)
                 (newStorageFor capacity increase ceiling)] ∧
          (reconcile_pvc metrics pvc).2 = Next tt
      | _, _ =>
          updates (reconcile_pvc metrics pvc).1 = [] ∧
          (reconcile_pvc metrics pvc).2 = Panic "assignment to entry in nil map"
      end
    else
      updates (reconcile_pvc metrics pvc).1 = [] ∧
      (reconcile_pvc metrics pvc).2 = Next tt.
Proof.
  unfold first_stop, pipeline, reconcile_pvc, updatePVCWithNewStorageSize.
  unfold_M. simp.
  destruct (StorageClassName (Spec pvc)) as [name |] eqn:?; simp; [| done].
  destruct (isStorageClassExpandable name) as [[] | ?] eqn:?; simp; [| done | done].
  destruct (isPVCResizable pvc) eqn:?; simp; [done |].
  destruct (metrics !! (Namespace pvc, Name pvc)) as [m |] eqn:?; simp; [| done].
  unfold convert, threshold_call, increase_call; simp.
  destruct (convertPercentageToBytes _ (VolumeCapacityBytes m) _) as [threshold |] eqn:?;
    simp; [| done].
  destruct (Capacity (Status pvc) !! ResourceStorage) as [capacity |] eqn:?; simp; [| done].
  destruct (Quantity.Value capacity =? 0) eqn:Hzero; simp; [done |].
  destruct (convertPercentageToBytes _ (Quantity.Value capacity) _) as [increase |] eqn:?;
    simp; [| done].
  assert (Hbelow : ∀ ceiling,
    (0 <=? Quantity.Cmp capacity ceiling) = false → capacity < ceiling).
  { intros ceiling. unfold Quantity.Cmp.
    destruct (Z.compare_spec capacity ceiling); simpl; intros; first [lia | done]. }
  destruct (index_ok (Annotations pvc) PVCAutoscalerPreviousCapacityAnnotation)
    as [previousCapacity |] eqn:?; simp.
  - destruct (Strconv.ParseInt previousCapacity) as [parsed |] eqn:?; simp; [| done].
    destruct (parsed =? VolumeCapacityBytes m) eqn:?; simp; [done |].
    destruct (getPVCStorageCeiling pvc) as [ceiling |] eqn:Hceiling; simp; [| done].
    destruct (0 <=? Quantity.Cmp capacity ceiling) eqn:Hcmp; simp; [done |].
    intros _. exists m, capacity, threshold, increase, ceiling.
    repeat (split; [first [done | by apply Z.eqb_neq | by apply Hbelow] |]).
    destruct (threshold <=? VolumeUsedBytes m); simp; use_equations; simp; [| done].
    destruct (Requests (Resources (Spec pvc))); simp; [| done].
    destruct (Annotations pvc) eqn:?; simp; [| done].
    destruct (Update _); simp; done.
  - destruct (getPVCStorageCeiling pvc) as [ceiling |] eqn:Hceiling; simp; [| done].
    destruct (0 <=? Quantity.Cmp capacity ceiling) eqn:Hcmp; simp; [done |].
    intros _. exists m, capacity, threshold, increase, ceiling.
    repeat (split; [first [done | by apply Z.eqb_neq | by apply Hbelow] |]).
    destruct (threshold <=? VolumeUsedBytes m); simp; use_equations; simp; [| done].
    destruct (Requests (Resources (Spec pvc))); simp; [| done].
    destruct (Annotations pvc) eqn:?; simp; [| done].
    destruct (Update _); simp; done.
Qed.

(** ** Consequences for single checks *)

Lemma pipeline_complete (c : Check) : In c pipeline.
Proof. destruct c; simpl; tauto. Qed.

(** A claim that does not pass some check is stopped by a check. *)
Lemma stops_first_stop `{!Collaborators} metrics pvc c :
  stops metrics pvc c = true → ∃ c', first_stop metrics pvc = Some c'.
Proof.
  intros Hstops. unfold first_stop.
  destruct (find (stops metrics pvc) pipeline) as [c' |] eqn:Hfind; [by exists c' |].
  pose proof (find_none _ _ Hfind c (pipeline_complete c)). congruence.
Qed.

(** A claim that passes every check but [c] is stopped by [c]. *)
Lemma stops_only `{!Collaborators} metrics pvc c :
  stops metrics pvc c = true →
  (∀ c', c' ≠ c → stops metrics pvc c' = false) →
  first_stop metrics pvc = Some c.
Proof.
  intros Hstops Hothers. unfold first_stop.
  destruct (find (stops metrics pvc) pipeline) as [c' |] eqn:Hfind.
  - apply find_some in Hfind as [_ Hc'].
    destruct (decide (position c' = position c)) as [Heq | Hne].
    + f_equal. by destruct c', c.
    + rewrite Hothers in Hc'; [done |]. intros ->. done.
  - pose proof (find_none _ _ Hfind c (pipeline_complete c)). congruence.
Qed.

Lemma first_stop_ending `{!Collaborators} metrics pvc c :
  first_stop metrics pvc = Some c → ending_of c = ending pvc.
Proof.
  unfold first_stop, ending. intros Hfind.
  destruct (StorageClassName (Spec pvc)) eqn:Hname.
  - apply find_some in Hfind as [_ Hstops].
    destruct c; try done. simpl in Hstops. by rewrite Hname in Hstops.
  - assert (Hnil : stops metrics pvc NilStorageClass = true) by (simpl; by rewrite Hname).
    unfold pipeline in Hfind. cbn [find] in Hfind. rewrite Hnil in Hfind.
    by injection Hfind as <-.
Qed.

(** A claim that does not pass some check gets no update, and the body
    does not run to its end. *)
Lemma stops_no_update `{!Collaborators} metrics pvc c :
  stops metrics pvc c = true →
  updates (reconcile_pvc metrics pvc).1 = [] ∧
  (reconcile_pvc metrics pvc).2 = ending pvc.
Proof.
  intros Hstops. destruct (stops_first_stop metrics pvc c Hstops) as [c' Hfirst].
  destruct (reconcile_pvc_stop metrics pvc c' Hfirst) as (_ & _ & Hflow & Hupdates).
  split; [done |]. rewrite Hflow. by apply first_stop_ending with metrics.
Qed.

Lemma Cmp_nonneg (q y : Z) : 0 <= Quantity.Cmp q y ↔ y <= q.
Proof. unfold Quantity.Cmp. destruct (Z.compare_spec q y); simpl; lia. Qed.

(** C10: a claim whose status capacity entry is present and zero gets no
    resize: no update is requested and the loop body ends early, by
    [continue] when the storage class is set; when every other check
    would pass, the body stops at the zero-capacity check itself. *)
Theorem zero_capacity_is_skipped `{!Collaborators}
    (metrics : gmap (string * string) PVCMetrics) (pvc : PersistentVolumeClaim)
    (capacity : Z) :
  Capacity (Status pvc) !! ResourceStorage = Some capacity →
  Quantity.Value capacity = 0 →
  updates (reconcile_pvc metrics pvc).1 = [] ∧
  (reconcile_pvc metrics pvc).2 = ending pvc ∧
  ((∀ c, c ≠ CapacityNonZero → stops metrics pvc c = false) →
   (reconcile_pvc metrics pvc).2 = Continue ∧
   last (messages (reconcile_pvc metrics pvc).1)
     = Some "skip pvc because its capacity is zero").
Proof.
  intros Hcapacity Hzero.
  assert (Hstops : stops metrics pvc CapacityNonZero = true).
  { simpl. rewrite Hcapacity. by apply Z.eqb_eq. }
  destruct (stops_no_update metrics pvc _ Hstops) as [Hupdates Hflow].
  split; [done |]. split; [done |]. intros Hothers.
  pose proof (stops_only metrics pvc _ Hstops Hothers) as Hfirst.
  by destruct (reconcile_pvc_stop metrics pvc _ Hfirst) as (_ & ? & ? & _).
Qed.

Lemma zero_capacity_is_skipped_witness :
  let pvc := Sample.claim (Some "standard") ∅ {[ ResourceStorage := 0 ]} in
  let metrics := Sample.observed (9 * Sample.GiB) (10 * Sample.GiB) in
  Capacity (Status pvc) !! ResourceStorage = Some 0 ∧
  Quantity.Value 0 = 0 ∧
  updates (@reconcile_pvc Sample.world metrics pvc).1 = [] ∧
  (@reconcile_pvc Sample.world metrics pvc).2 = ending pvc ∧
  ((∀ c, c ≠ CapacityNonZero → @stops Sample.world metrics pvc c = false) →
   (@reconcile_pvc Sample.world metrics pvc).2 = Continue ∧
   last (messages (@reconcile_pvc Sample.world metrics pvc).1)
     = Some "skip pvc because its capacity is zero").
Proof.
  split; [reflexivity |]. split; [reflexivity |].
  apply (@zero_capacity_is_skipped Sample.world _ _ 0); reflexivity.
Defined.

(** In that cluster every check but the zero-capacity one passes. *)
Example zero_capacity_only :
  let pvc := Sample.claim (Some "standard") ∅ {[ ResourceStorage := 0 ]} in
  let metrics := Sample.observed (9 * Sample.GiB) (10 * Sample.GiB) in
  ∀ c, c ≠ CapacityNonZero → @stops Sample.world metrics pvc c = false.
Proof. intros pvc metrics c Hc. destruct c; first [done | vm_compute; reflexivity]. Qed.

(** C4: a claim whose capacity is at or above the ceiling gets no
    resize, whatever its usage: no update is requested and the loop
    body ends early. *)
Theorem at_ceiling_is_skipped `{!Collaborators}
    (metrics : gmap (string * string) PVCMetrics) (pvc : PersistentVolumeClaim)
    (capacity ceiling : Z) :
  Capacity (Status pvc) !! ResourceStorage = Some capacity →
  getPVCStorageCeiling pvc = Ok ceiling →
  ceiling <= capacity →
  updates (reconcile_pvc metrics pvc).1 = [] ∧
  (reconcile_pvc metrics pvc).2 = ending pvc.
Proof.
  intros Hcapacity Hceiling Hle.
  apply stops_no_update with CeilingReached.
  simpl. rewrite Hcapacity, Hceiling. by apply Z.leb_le, Cmp_nonneg.
Qed.

Lemma at_ceiling_is_skipped_witness :
  let pvc := Sample.claim (Some "standard") {[ PVCAutoscalerCeilingAnnotation := "10Gi" ]}
               {[ ResourceStorage := 10 * Sample.GiB ]} in
  let metrics := Sample.observed (10 * Sample.GiB - 1) (10 * Sample.GiB) in
  Capacity (Status pvc) !! ResourceStorage = Some (10 * Sample.GiB) ∧
  @getPVCStorageCeiling Sample.world pvc = Ok (10 * Sample.GiB) ∧
  10 * Sample.GiB <= 10 * Sample.GiB ∧
  updates (@reconcile_pvc Sample.world metrics pvc).1 = [] ∧
  (@reconcile_pvc Sample.world metrics pvc).2 = ending pvc.
Proof.
  split; [reflexivity |]. split; [reflexivity |]. split; [reflexivity |].
  apply (@at_ceiling_is_skipped Sample.world) with (10 * Sample.GiB) (10 * Sample.GiB);
    [reflexivity | reflexivity | reflexivity].
Defined.

(** The check that stops a claim is no later in the pipeline than any
    check that the claim does not pass. *)
Lemma stops_first_stop_le `{!Collaborators} metrics pvc c :
  stops metrics pvc c = true →
  ∃ c', first_stop metrics pvc = Some c' ∧ (position c' <= position c)%nat.
Proof.
  intros Hstops. unfold first_stop, pipeline. cbn [find].
  first_stop_step NilStorageClass c.
  first_stop_step StorageClassLookup c.
  first_stop_step StorageClassExpandable c.
  first_stop_step ClaimResizable c.
  first_stop_step MetricsPresent c.
  first_stop_step ThresholdConversion c.
  first_stop_step CapacitySet c.
  first_stop_step CapacityNonZero c.
  first_stop_step IncreaseConversion c.
  first_stop_step PreviousCapacityParse c.
  first_stop_step ResizePending c.
  first_stop_step CeilingFetch c.
  first_stop_step CeilingReached c.
  destruct c; congruence.
Qed.

(** A claim stopped at the oscillation guard or before it never has its
    ceiling fetched: the growth stage is not entered. *)
Lemma stopped_before_ceiling `{!Collaborators} metrics pvc c :
  first_stop metrics pvc = Some c →
  (position c <= position ResizePending)%nat →
  CallGetPVCStorageCeiling pvc ∉ calls (reconcile_pvc metrics pvc).1.
Proof.
  intros Hfirst Hle.
  destruct (reconcile_pvc_stop metrics pvc c Hfirst) as (-> & _).
  unfold through, pipeline.
  destruct (metrics !! (Namespace pvc, Name pvc)) as [m |] eqn:Hm;
    destruct (Capacity (Status pvc) !! ResourceStorage) as [capacity |] eqn:Hcapacity;
    destruct (StorageClassName (Spec pvc)) eqn:Hname;
    destruct c; simpl in Hle; try lia; simpl; rewrite ?Hm, ?Hcapacity, ?Hname; simpl;
    intros Hin; repeat (apply elem_of_cons in Hin as [Heq | Hin]; [discriminate |]);
    by apply elem_of_nil in Hin.
Qed.

Lemma pending_no_update `{!Collaborators} metrics pvc previousCapacity parsed :
  index_ok (Annotations pvc) PVCAutoscalerPreviousCapacityAnnotation = Some previousCapacity →
  Strconv.ParseInt previousCapacity = Some parsed →
  observed_capacity_is parsed pvc metrics →
  updates (reconcile_pvc metrics pvc).1 = [] ∧
  (reconcile_pvc metrics pvc).2 = ending pvc ∧
  CallGetPVCStorageCeiling pvc ∉ calls (reconcile_pvc metrics pvc).1.
Proof.
  intros Hmarker Hparsed Hobserved.
  assert (Hstops : ∃ c, stops metrics pvc c = true ∧
                        (position c <= position ResizePending)%nat).
  { destruct (metrics !! (Namespace pvc, Name pvc)) as [m |] eqn:Hm.
    - exists ResizePending. split; [| done].
      simpl. rewrite Hmarker, Hm, Hparsed. apply Z.eqb_eq. symmetry. by apply Hobserved.
    - exists MetricsPresent. split; [| simpl; lia]. simpl. by rewrite Hm. }
  destruct Hstops as (c & Hstops & Hle).
  destruct (stops_no_update metrics pvc c Hstops) as [Hupdates Hflow].
  destruct (stops_first_stop_le metrics pvc c Hstops) as (c' & Hfirst & Hle').
  repeat split; [done | done |].
  apply stopped_before_ceiling with c'; [done | lia].
Qed.

(** C2: a claim whose previous-capacity marker parses to the capacity
    that the metrics report gets no resize, whatever its usage: no
    update is requested, the loop body ends early and the ceiling is
    not even fetched, so the growth stage is not entered; and over any
    number of further cycles in which the metrics report that capacity,
    whatever else they and the collaborators answer, no update is
    requested and the stored claim stays as it is. *)
Theorem pending_resize_is_idempotent (pvc : PersistentVolumeClaim)
    (previousCapacity : string) (parsed : Z) :
  index_ok (Annotations pvc) PVCAutoscalerPreviousCapacityAnnotation = Some previousCapacity →
  Strconv.ParseInt previousCapacity = Some parsed →
  (∀ (world : Collaborators) (metrics : gmap (string * string) PVCMetrics),
     observed_capacity_is parsed pvc metrics →
     updates (@reconcile_pvc world metrics pvc).1 = [] ∧
     (@reconcile_pvc world metrics pvc).2 = ending pvc ∧
     CallGetPVCStorageCeiling pvc ∉ calls (@reconcile_pvc world metrics pvc).1) ∧
  (∀ observations : list (Collaborators * gmap (string * string) PVCMetrics),
     Forall (λ o, observed_capacity_is parsed pvc o.2) observations →
     cycles observations pvc = ([], pvc)).
Proof.
  intros Hmarker Hparsed. split.
  - intros world metrics. by apply pending_no_update with previousCapacity.
  - induction 1 as [| [world metrics] rest Hhere _ IH]; [done |].
    simpl in Hhere.
    destruct (@pending_no_update world metrics pvc _ _ Hmarker Hparsed Hhere) as (Hupdates & _).
    simpl. unfold stored_after. rewrite Hupdates. by rewrite IH.
Qed.

Lemma pending_resize_is_idempotent_witness :
  let pvc := Sample.claim (Some "standard")
               {[ PVCAutoscalerPreviousCapacityAnnotation := "10737418240" ]}
               {[ ResourceStorage := 10 * Sample.GiB ]} in
  index_ok (Annotations pvc) PVCAutoscalerPreviousCapacityAnnotation = Some "10737418240" ∧
  Strconv.ParseInt "10737418240" = Some 10737418240 ∧
  (∀ (world : Collaborators) (metrics : gmap (string * string) PVCMetrics),
     observed_capacity_is 10737418240 pvc metrics →
     updates (@reconcile_pvc world metrics pvc).1 = [] ∧
     (@reconcile_pvc world metrics pvc).2 = ending pvc ∧
     CallGetPVCStorageCeiling pvc ∉ calls (@reconcile_pvc world metrics pvc).1) ∧
  (∀ observations : list (Collaborators * gmap (string * string) PVCMetrics),
     Forall (λ o, observed_capacity_is 10737418240 pvc o.2) observations →
     cycles observations pvc = ([], pvc)).
Proof.
  split; [reflexivity |]. split; [reflexivity |].
  apply pending_resize_is_idempotent with "10737418240"; reflexivity.
Defined.

(** ** The update of a resized claim *)

(** Every update comes from a claim that passed all the checks and whose
    usage reached the threshold; it is the only update of the run. *)
Lemma update_inversion `{!Collaborators} metrics pvc pvc' :
  pvc' ∈ updates (reconcile_pvc metrics pvc).1 →
  ∃ m capacity threshold increase ceiling requests annotations,
    metrics !! (Namespace pvc, Name pvc) = Some m ∧
    Capacity (Status pvc) !! ResourceStorage = Some capacity ∧
    convert (threshold_call pvc m) = Ok threshold ∧
    convert (increase_call pvc capacity) = Ok increase ∧
    getPVCStorageCeiling pvc = Ok ceiling ∧
    Quantity.Value capacity ≠ 0 ∧
    capacity < ceiling ∧
    threshold <= VolumeUsedBytes m ∧
    Requests (Resources (Spec pvc)) = Some requests ∧
    Annotations pvc = Some annotations ∧
    pvc' = resized pvc requests annotations (VolumeCapacityBytes m)
             (newStorageFor capacity increase ceiling) ∧
    updates (reconcile_pvc metrics pvc).1 = [pvc'] ∧
    conversions (reconcile_pvc metrics pvc).1
      = [threshold_call pvc m; increase_call pvc capacity].
Proof.
  intros Hin. destruct (first_stop metrics pvc) as [c |] eqn:Hfirst.
  { destruct (reconcile_pvc_stop metrics pvc c Hfirst) as (_ & _ & _ & Hnone).
    rewrite Hnone in Hin. by apply elem_of_nil in Hin. }
  destruct (reconcile_pvc_growth metrics pvc Hfirst)
    as (m & capacity & threshold & increase & ceiling & Hm & Hcapacity & Hthreshold &
        Hincrease & Hceiling & Hnonzero & Hbelow & Hconversions & _ & Hgrowth).
  exists m, capacity, threshold, increase, ceiling.
  destruct (Z.leb_spec threshold (VolumeUsedBytes m)) as [Hreached | _];
    [| destruct Hgrowth as [Hnone _]; rewrite Hnone in Hin; by apply elem_of_nil in Hin].
  destruct (Requests (Resources (Spec pvc))) as [requests |];
    [| destruct Hgrowth as [Hnone _]; rewrite Hnone in Hin; by apply elem_of_nil in Hin].
  destruct (Annotations pvc) as [annotations |];
    [| destruct Hgrowth as [Hnone _]; rewrite Hnone in Hin; by apply elem_of_nil in Hin].
  destruct Hgrowth as [Hupdates _]. rewrite Hupdates in Hin.
  apply list_elem_of_singleton in Hin as ->.
  exists requests, annotations. by repeat split.
Qed.

(** C5: the claim sent to [Update] differs from the claim read in the
    storage request and the previous-capacity annotation only: every
    other annotation, the threshold, increase and ceiling ones among
    them, every other request and every other field are as read; and
    the annotation written is the decimal text of the capacity that the
    metrics report, which reads back as that number. *)
Theorem update_writes_request_and_marker `{!Collaborators}
    (metrics : gmap (string * string) PVCMetrics) (pvc pvc' : PersistentVolumeClaim) :
  pvc' ∈ updates (reconcile_pvc metrics pvc).1 →
  ∃ m,
    metrics !! (Namespace pvc, Name pvc) = Some m ∧
    Namespace pvc' = Namespace pvc ∧ Name pvc' = Name pvc ∧
    Status pvc' = Status pvc ∧
    StorageClassName (Spec pvc') = StorageClassName (Spec pvc) ∧
    Limits (Resources (Spec pvc')) = Limits (Resources (Spec pvc)) ∧
    (∀ resource, resource ≠ ResourceStorage →
       index_ok (Requests (Resources (Spec pvc'))) resource
       = index_ok (Requests (Resources (Spec pvc))) resource) ∧
    (∀ key, key ≠ PVCAutoscalerPreviousCapacityAnnotation →
       index_ok (Annotations pvc') key = index_ok (Annotations pvc) key) ∧
    index_ok (Annotations pvc') PVCAutoscalerThresholdAnnotation
      = index_ok (Annotations pvc) PVCAutoscalerThresholdAnnotation ∧
    index_ok (Annotations pvc') PVCAutoscalerIncreaseAnnotation
      = index_ok (Annotations pvc) PVCAutoscalerIncreaseAnnotation ∧
    index_ok (Annotations pvc') PVCAutoscalerCeilingAnnotation
      = index_ok (Annotations pvc) PVCAutoscalerCeilingAnnotation ∧
    index_ok (Annotations pvc') PVCAutoscalerPreviousCapacityAnnotation
      = Some (Strconv.FormatInt (VolumeCapacityBytes m)) ∧
    (Int64.in_range (VolumeCapacityBytes m) →
     index_ok (Annotations pvc') PVCAutoscalerPreviousCapacityAnnotation
       ≫= Strconv.ParseInt = Some (VolumeCapacityBytes m)).
Proof.
  intros Hin.
  destruct (update_inversion metrics pvc pvc' Hin)
    as (m & capacity & threshold & increase & ceiling & requests & annotations &
        Hm & _ & _ & _ & _ & _ & _ & _ & Hrequests & Hannotations & -> & _).
  exists m. split; [done |].
  assert (Hframe : ∀ key, key ≠ PVCAutoscalerPreviousCapacityAnnotation →
    index_ok (Annotations (resized pvc requests annotations (VolumeCapacityBytes m)
                (newStorageFor capacity increase ceiling))) key
    = index_ok (Annotations pvc) key).
  { intros key Hkey. rewrite Hannotations. simpl. by rewrite lookup_insert_ne. }
  repeat (split; [done |]).
  split.
  { intros resource Hresource. rewrite Hrequests. simpl. by rewrite lookup_insert_ne. }
  split; [done |].
  repeat (split; [by apply Hframe |]).
  assert (Hwritten :
    index_ok (Annotations (resized pvc requests annotations (VolumeCapacityBytes m)
                (newStorageFor capacity increase ceiling)))
      PVCAutoscalerPreviousCapacityAnnotation
    = Some (Strconv.FormatInt (VolumeCapacityBytes m))).
  { simpl. by rewrite lookup_insert_eq. }
  split; [done |]. intros Hrange. rewrite Hwritten. simpl.
  by apply ParseInt_FormatInt.
Qed.

Lemma update_writes_request_and_marker_witness :
  let pvc := Sample.claim (Some "standard")
               {[ PVCAutoscalerThresholdAnnotation := "70%";
                  PVCAutoscalerCeilingAnnotation := "11Gi" ]}
               {[ ResourceStorage := 10 * Sample.GiB ]} in
  let metrics := Sample.observed (9 * Sample.GiB) 10501771264 in
  let pvc' := resized pvc {[ ResourceStorage := 10 * Sample.GiB ]}
                {[ PVCAutoscalerThresholdAnnotation := "70%";
                   PVCAutoscalerCeilingAnnotation := "11Gi" ]}
                10501771264 (11 * Sample.GiB) in
  pvc' ∈ updates (@reconcile_pvc Sample.world metrics pvc).1 ∧
  index_ok (Annotations pvc') PVCAutoscalerPreviousCapacityAnnotation = Some "10501771264" ∧
  ∃ m,
    metrics !! (Namespace pvc, Name pvc) = Some m ∧
    Namespace pvc' = Namespace pvc ∧ Name pvc' = Name pvc ∧
    Status pvc' = Status pvc ∧
    StorageClassName (Spec pvc') = StorageClassName (Spec pvc) ∧
    Limits (Resources (Spec pvc')) = Limits (Resources (Spec pvc)) ∧
    (∀ resource, resource ≠ ResourceStorage →
       index_ok (Requests (Resources (Spec pvc'))) resource
       = index_ok (Requests (Resources (Spec pvc))) resource) ∧
    (∀ key, key ≠ PVCAutoscalerPreviousCapacityAnnotation →
       index_ok (Annotations pvc') key = index_ok (Annotations pvc) key) ∧
    index_ok (Annotations pvc') PVCAutoscalerThresholdAnnotation
      = index_ok (Annotations pvc) PVCAutoscalerThresholdAnnotation ∧
    index_ok (Annotations pvc') PVCAutoscalerIncreaseAnnotation
      = index_ok (Annotations pvc) PVCAutoscalerIncreaseAnnotation ∧
    index_ok (Annotations pvc') PVCAutoscalerCeilingAnnotation
      = index_ok (Annotations pvc) PVCAutoscalerCeilingAnnotation ∧
    index_ok (Annotations pvc') PVCAutoscalerPreviousCapacityAnnotation
      = Some (Strconv.FormatInt (VolumeCapacityBytes m)) ∧
    (Int64.in_range (VolumeCapacityBytes m) →
     index_ok (Annotations pvc') PVCAutoscalerPreviousCapacityAnnotation
       ≫= Strconv.ParseInt = Some (VolumeCapacityBytes m)).
Proof.
  assert (Hin :
    resized (Sample.claim (Some "standard")
               {[ PVCAutoscalerThresholdAnnotation := "70%";
                  PVCAutoscalerCeilingAnnotation := "11Gi" ]}
               {[ ResourceStorage := 10 * Sample.GiB ]})
      {[ ResourceStorage := 10 * Sample.GiB ]}
      {[ PVCAutoscalerThresholdAnnotation := "70%";
         PVCAutoscalerCeilingAnnotation := "11Gi" ]}
      10501771264 (11 * Sample.GiB)
    ∈ updates (@reconcile_pvc Sample.world (Sample.observed (9 * Sample.GiB) 10501771264)
                 (Sample.claim (Some "standard")
                    {[ PVCAutoscalerThresholdAnnotation := "70%";
                       PVCAutoscalerCeilingAnnotation := "11Gi" ]}
                    {[ ResourceStorage := 10 * Sample.GiB ]})).1).
  { vm_compute. apply list_elem_of_here. }
  split; [exact Hin |]. split; [vm_compute; reflexivity |].
  exact (@update_writes_request_and_marker Sample.world _ _ _ Hin).
Defined.

(** The marker written by a resize is the one the oscillation guard
    waits on: while the metrics keep reporting the capacity seen at the
    resize, the claim as updated gets no further update. *)
Lemma resized_claim_waits `{!Collaborators} metrics pvc pvc' m :
  metrics !! (Namespace pvc, Name pvc) = Some m →
  Int64.in_range (VolumeCapacityBytes m) →
  pvc' ∈ updates (reconcile_pvc metrics pvc).1 →
  ∀ (world' : Collaborators) metrics',
    observed_capacity_is (VolumeCapacityBytes m) pvc' metrics' →
    updates (@reconcile_pvc world' metrics' pvc').1 = [].
Proof.
  intros Hm Hrange Hin world' metrics' Hobserved.
  destruct (update_inversion metrics pvc pvc' Hin)
    as (m' & capacity & threshold & increase & ceiling & requests & annotations &
        Hm' & _ & _ & _ & _ & _ & _ & _ & _ & _ & -> & _).
  assert (m' = m) as -> by congruence.
  eapply (@pending_no_update world').
  - simpl. by rewrite lookup_insert_eq.
  - by apply ParseInt_FormatInt.
  - done.
Qed.

(** The guard over three cycles: the claim waits while the metrics still
    report the 10 GiB of its marker, is resized from 12 GiB to 15 GiB
    once they report 12 GiB, and then waits on the new marker. *)
Example pending_until_capacity_changes :
  let pvc := Sample.claim (Some "standard")
               {[ PVCAutoscalerPreviousCapacityAnnotation := "10737418240" ]}
               {[ ResourceStorage := 12 * Sample.GiB ]} in
  let observations :=
    [ (Sample.world, Sample.observed (10 * Sample.GiB) (10 * Sample.GiB));
      (Sample.world, Sample.observed (11 * Sample.GiB) (12 * Sample.GiB));
      (Sample.world, Sample.observed (12 * Sample.GiB) (12 * Sample.GiB)) ] in
  requested <$> (cycles observations pvc).1 = [Some (15 * Sample.GiB)] ∧
  index_ok (Annotations (cycles observations pvc).2) PVCAutoscalerPreviousCapacityAnnotation
    = Some "12884901888".
Proof. vm_compute. split; reflexivity. Qed.

(** ** The reference values of the conversions *)

Lemma conversions_calls (t : list Event) : conversions (calls t) = conversions t.
Proof.
  induction t as [| e t IH]; [done |].
  destruct e; simpl; by rewrite ?IH.
Qed.

(** C7, as the code has it: the threshold is converted against the
    capacity that the metrics report and the increase against the
    capacity in the claim's status. Every conversion of a run is one of
    these two, and a run that requests an update made exactly these two,
    in this order. *)
Theorem conversions_use_metrics_then_status_capacity `{!Collaborators}
    (metrics : gmap (string * string) PVCMetrics) (pvc : PersistentVolumeClaim) :
  (∀ call, call ∈ conversions (reconcile_pvc metrics pvc).1 →
     (∃ m, metrics !! (Namespace pvc, Name pvc) = Some m ∧
           call = (index_string (Annotations pvc) PVCAutoscalerThresholdAnnotation,
                   VolumeCapacityBytes m, DefaultThreshold)) ∨
     (∃ capacity, Capacity (Status pvc) !! ResourceStorage = Some capacity ∧
           call = (index_string (Annotations pvc) PVCAutoscalerIncreaseAnnotation,
                   Quantity.Value capacity, DefaultIncrease))) ∧
  (∀ pvc', pvc' ∈ updates (reconcile_pvc metrics pvc).1 →
     ∃ m capacity,
       metrics !! (Namespace pvc, Name pvc) = Some m ∧
       Capacity (Status pvc) !! ResourceStorage = Some capacity ∧
       conversions (reconcile_pvc metrics pvc).1
       = [ (index_string (Annotations pvc) PVCAutoscalerThresholdAnnotation,
            VolumeCapacityBytes m, DefaultThreshold);
           (index_string (Annotations pvc) PVCAutoscalerIncreaseAnnotation,
            Quantity.Value capacity, DefaultIncrease) ]).
Proof.
  split.
  - intros call Hin. destruct (first_stop metrics pvc) as [c |] eqn:Hfirst.
    + destruct (reconcile_pvc_stop metrics pvc c Hfirst) as (Hcalls & _).
      rewrite <- conversions_calls, Hcalls in Hin. clear Hcalls Hfirst.
      unfold through, pipeline in Hin.
      destruct (metrics !! (Namespace pvc, Name pvc)) as [m |] eqn:Hm;
        destruct (Capacity (Status pvc) !! ResourceStorage) as [capacity |] eqn:Hcapacity;
        destruct (StorageClassName (Spec pvc)) eqn:Hname;
        destruct c; simpl in Hin; rewrite ?Hm, ?Hcapacity, ?Hname in Hin; simpl in Hin;
        repeat (apply elem_of_cons in Hin as [-> | Hin]);
        try (by apply elem_of_nil in Hin);
        first [ left; by exists m | right; by exists capacity ].
    + destruct (reconcile_pvc_growth metrics pvc Hfirst)
        as (m & capacity & threshold & increase & ceiling & Hm & Hcapacity & _ & _ & _ & _ & _ &
            Hconversions & _).
      rewrite Hconversions in Hin.
      repeat (apply elem_of_cons in Hin as [-> | Hin]);
        try (by apply elem_of_nil in Hin);
        first [ left; by exists m | right; by exists capacity ].
  - intros pvc' Hin.
    destruct (update_inversion metrics pvc pvc' Hin)
      as (m & capacity & threshold & increase & ceiling & requests & annotations &
          Hm & Hcapacity & _ & _ & _ & _ & _ & _ & _ & _ & _ & _ & Hconversions).
    by exists m, capacity.
Qed.

(** C7, as stated, fails: with 10 GiB in the claim's status and the
    file system's 10501771264 bytes in the metrics, the threshold is 80%
    of the latter and the increase 20% of the former. *)
Lemma conversions_differ_in_reference :
  let pvc := Sample.claim (Some "standard")
               {[ PVCAutoscalerThresholdAnnotation := "80%";
                  PVCAutoscalerIncreaseAnnotation := "20%" ]}
               {[ ResourceStorage := 10 * Sample.GiB ]} in
  let metrics := Sample.observed (9 * Sample.GiB) 10501771264 in
  conversions (@reconcile_pvc Sample.world metrics pvc).1
    = [ ("80%", 10501771264, "80%"); ("20%", 10737418240, "20%") ] ∧
  ¬ same_reference (@reconcile_pvc Sample.world metrics pvc).1.
Proof.
  assert (Hrun :
    conversions (@reconcile_pvc Sample.world (Sample.observed (9 * Sample.GiB) 10501771264)
      (Sample.claim (Some "standard")
         {[ PVCAutoscalerThresholdAnnotation := "80%";
            PVCAutoscalerIncreaseAnnotation := "20%" ]}
         {[ ResourceStorage := 10 * Sample.GiB ]})).1
    = [ ("80%", 10501771264, "80%"); ("20%", 10737418240, "20%") ])
    by (vm_compute; reflexivity).
  split; [exact Hrun |].
  intros [reference Hsame]. cbv zeta in Hsame. rewrite Hrun in Hsame.
  pose proof (Hsame ("80%", 10501771264, "80%") ltac:(apply list_elem_of_here)) as H1.
  pose proof (Hsame ("20%", 10737418240, "20%")
                ltac:(apply list_elem_of_further, list_elem_of_here)) as H2.
  simpl in H1, H2. lia.
Qed.

(** ** The order of the stages *)



(** ** A failed metrics fetch *)

(** C8, as the code has it: when the metrics fetch fails, [reconcile]
    logs the error and returns [nil]; no claim is processed. *)
Theorem metrics_failure_is_logged_not_returned `{!Collaborators}
    (pvcl : PersistentVolumeClaimList) (err : string) :
  getAnnotatedPVCs = Ok pvcl →
  FetchPVCsMetrics = Failed err →
  reconcile
  = ([ CallGetAnnotatedPVCs;
       Log {| level := Debug; fields := [("count", VInt (Size pvcl))];
              message := "fetched annotated pvcs" |};
       CallFetchPVCsMetrics;
       Log {| level := Error; fields := [("error", VError err)];
              message := "could not fetch the PersistentVolumeClaims metrics" |} ],
     Next None).
Proof.
  intros Hlist Hfetch. unfold reconcile. by rewrite Hlist, Hfetch.
Qed.

Lemma metrics_failure_is_logged_not_returned_witness :
  let pvcl := {| Items := [Sample.claim (Some "standard") ∅
                             {[ ResourceStorage := 10 * Sample.GiB ]}];
                 Size := 1 |} in
  let world := Sample.cluster (Ok pvcl) (Failed "connection refused") in
  @getAnnotatedPVCs world = Ok pvcl ∧
  @FetchPVCsMetrics world = Failed "connection refused" ∧
  @reconcile world
  = ([ CallGetAnnotatedPVCs;
       Log {| level := Debug; fields := [("count", VInt 1)];
              message := "fetched annotated pvcs" |};
       CallFetchPVCsMetrics;
       Log {| level := Error; fields := [("error", VError "connection refused")];
              message := "could not fetch the PersistentVolumeClaims metrics" |} ],
     Next None).
Proof.
  split; [reflexivity |]. split; [reflexivity |].
  exact (@metrics_failure_is_logged_not_returned
           (Sample.cluster
              (Ok {| Items := [Sample.claim (Some "standard") ∅
                                 {[ ResourceStorage := 10 * Sample.GiB ]}];
                     Size := 1 |})
              (Failed "connection refused"))
           {| Items := [Sample.claim (Some "standard") ∅
                          {[ ResourceStorage := 10 * Sample.GiB ]}];
              Size := 1 |}
           "connection refused" eq_refl eq_refl).
Defined.

(** C8, as stated, fails: with a metrics client that cannot be reached,
    [reconcile] returns no error to its caller. *)
Lemma metrics_failure_returns_nil :
  let pvcl := {| Items := [Sample.claim (Some "standard") ∅
                             {[ ResourceStorage := 10 * Sample.GiB ]}];
                 Size := 1 |} in
  let world := Sample.cluster (Ok pvcl) (Failed "connection refused") in
  @FetchPVCsMetrics world = Failed "connection refused" ∧
  (@reconcile world).2 = Next None ∧
  ¬ ∃ err, (@reconcile world).2 = Next (Some err).
Proof.
  repeat split; try reflexivity. by intros [err Herr].
Qed.

(** ** Runtime faults *)

(** A claim without a storage class name stops the body at the
    dereference of line 36, before any collaborator is called. *)
Lemma nil_storage_class_panics `{!Collaborators} metrics pvc :
  StorageClassName (Spec pvc) = None →
  reconcile_pvc metrics pvc
  = ([ Log {| level := Debug;
              fields := [("id", VString (pvcIdOf (Namespace pvc) (Name pvc)))];
              message := "processing pvc" |} ],
     Panic "invalid memory address or nil pointer dereference").
Proof. intros Hnil. unfold reconcile_pvc. by rewrite Hnil. Qed.

(** A panic in one iteration ends the loop with a panic. *)
Lemma for_range_panics {A} (items : list A) (body : A → M unit) (item : A) :
  In item items →
  (∃ t reason, body item = (t, Panic reason)) →
  ∃ t reason, for_range items body = (t, Panic reason).
Proof.
  intros Hin Hpanic. induction items as [| first rest IH]; [done |].
  simpl. unfold mbind, M_bind, end_iteration.
  destruct (body first) as [t [[] | | reason]] eqn:Hfirst.
  - destruct Hin as [-> | Hin].
    { destruct Hpanic as (? & ? & Hpanic). congruence. }
    destruct (IH Hin) as (t' & reason & ->). by eexists _, _.
  - destruct Hin as [-> | Hin].
    { destruct Hpanic as (? & ? & Hpanic). congruence. }
    destruct (IH Hin) as (t' & reason & ->). by eexists _, _.
  - by eexists _, _.
Qed.

(** Whatever the collaborators answer, a listed claim without a storage
    class name makes the cycle end in a panic once the claims and the
    metrics are fetched. *)
Lemma nil_storage_class_panics_reconcile `{!Collaborators} pvcl metrics pvc :
  getAnnotatedPVCs = Ok pvcl →
  FetchPVCsMetrics = Ok metrics →
  In pvc (Items pvcl) →
  StorageClassName (Spec pvc) = None →
  ∃ reason, reconcile.2 = Panic reason.
Proof.
  intros Hlist Hfetch Hin Hnil. unfold reconcile. rewrite Hlist, Hfetch.
  destruct (for_range_panics (Items pvcl) (reconcile_pvc metrics) pvc Hin)
    as (t & reason & Hloop).
  { eexists _, _. by apply nil_storage_class_panics. }
  exists reason. unfold_M. simpl. by rewrite Hloop.
Qed.

(** C9, on the code: a claim without a storage class name makes
    [reconcile] panic. The cycle ends there: the claim listed after it,
    which alone is resized, is never processed. *)
Theorem nil_storage_class_crashes_the_cycle :
  let bad := Sample.claim_named "scratch" None ∅ {[ ResourceStorage := 10 * Sample.GiB ]} in
  let good := Sample.claim_named "data" (Some "standard") ∅
                {[ ResourceStorage := 10 * Sample.GiB ]} in
  let metrics := Sample.observed_for "scratch" (9 * Sample.GiB) (10 * Sample.GiB)
                 ∪ Sample.observed_for "data" (9 * Sample.GiB) (10 * Sample.GiB) in
  let world := Sample.cluster (Ok {| Items := [bad; good]; Size := 2 |}) (Ok metrics) in
  let alone := Sample.cluster (Ok {| Items := [good]; Size := 1 |}) (Ok metrics) in
  (@reconcile world).2 = Panic "invalid memory address or nil pointer dereference" ∧
  last (messages (@reconcile world).1) = Some "processing pvc" ∧
  calls (@reconcile world).1 = [CallGetAnnotatedPVCs; CallFetchPVCsMetrics] ∧
  (@reconcile alone).2 = Next None ∧
  requested <$> updates (@reconcile alone).1 = [Some (12 * Sample.GiB)].
Proof. repeat split; vm_compute; reflexivity. Qed.

(** ** The new size *)

(** Within the sizes that [float64] holds exactly, a resize grows the
    claim and stays at or below the ceiling: for an increase above zero
    the requested size is above the capacity and at most the ceiling. *)
Lemma update_grows_below_ceiling `{!Collaborators} metrics pvc pvc' :
  pvc' ∈ updates (reconcile_pvc metrics pvc).1 →
  ∃ capacity increase ceiling target,
    Capacity (Status pvc) !! ResourceStorage = Some capacity ∧
    convert (increase_call pvc capacity) = Ok increase ∧
    getPVCStorageCeiling pvc = Ok ceiling ∧
    requested pvc' = Some target ∧
    target <= ceiling ∧
    (0 <= capacity → 0 < increase → capacity + increase <= 2 ^ 53 → capacity < target).
Proof.
  intros Hin.
  destruct (update_inversion metrics pvc pvc' Hin)
    as (m & capacity & threshold & increase & ceiling & requests & annotations &
        _ & Hcapacity & _ & Hincrease & Hceiling & _ & Hbelow & _ & _ & _ & -> & _).
  exists capacity, increase, ceiling, (newStorageFor capacity increase ceiling).
  repeat (split; [done |]).
  split; [unfold requested; simpl; by rewrite lookup_insert_eq |].
  split; [apply newStorageFor_le_ceiling |].
  intros. by apply newStorageFor_grows.
Qed.

(** C1, on the code: a claim one GiB short of 8 EiB, below its ceiling of
    8 EiB and with the default increase of 20%, is resized to a negative
    size: the sum of capacity and increase wraps around in [int64]. *)
Theorem resize_to_negative_size_at_8EiB :
  let pvc := Sample.claim (Some "standard") {[ PVCAutoscalerCeilingAnnotation := "8Ei" ]}
               {[ ResourceStorage := 9223372035781033984 ]} in
  let metrics := Sample.observed 9223372035781033984 9223372035781033984 in
  Capacity (Status pvc) !! ResourceStorage = Some 9223372035781033984 ∧
  @getPVCStorageCeiling Sample.world pvc = Ok 9223372036854775808 ∧
  @convertPercentageToBytes Sample.world EmptyString 9223372035781033984 DefaultIncrease
    = Ok 1844674407156206796 ∧
  Int64.add 9223372035781033984 1844674407156206796 = -7378697630772310836 ∧
  requested <$> updates (@reconcile_pvc Sample.world metrics pvc).1
    = [Some (-7378697629913317376)] ∧
  -7378697629913317376 < 9223372035781033984.
Proof. repeat split; vm_compute; reflexivity. Qed.

(** The same line, by rounding: a claim of 8 PiB whose increase is one
    byte is resized to the 8 PiB it has: 2^53 + 1 is not a [float64],
    the sum is rounded down to 2^53 before it is rounded up to a GiB. *)
Example resize_to_same_size_at_8PiB :
  let pvc := Sample.claim (Some "standard")
               {[ PVCAutoscalerIncreaseAnnotation := "1";
                  PVCAutoscalerCeilingAnnotation := "16Pi" ]}
               {[ ResourceStorage := 9007199254740992 ]} in
  let metrics := Sample.observed 9007199254740992 9007199254740992 in
  Capacity (Status pvc) !! ResourceStorage = Some 9007199254740992 ∧
  @convertPercentageToBytes Sample.world "1" 9007199254740992 DefaultIncrease = Ok 1 ∧
  Float64.float64_of_int64 (9007199254740992 + 1) = 9007199254740992 ∧
  requested <$> updates (@reconcile_pvc Sample.world metrics pvc).1
    = [Some 9007199254740992].
Proof. repeat split; vm_compute; reflexivity. Qed.

(** C3, on the code: a claim of 7505999378950828 bytes with the default
    increase of 20%, below its ceiling of 16 PiB, has the raw target
    2^53 + 1, which [float64] rounds down to 2^53; the size requested is
    that multiple of a GiB, one byte below the raw target and 1 GiB
    below the smallest multiple that holds it. *)
Theorem rounding_falls_below_raw_target :
  let pvc := Sample.claim (Some "standard") {[ PVCAutoscalerCeilingAnnotation := "16Pi" ]}
               {[ ResourceStorage := 7505999378950828 ]} in
  let metrics := Sample.observed 7505999378950828 7505999378950828 in
  @convertPercentageToBytes Sample.world EmptyString 7505999378950828 DefaultIncrease
    = Ok 1501199875790165 ∧
  Int64.add 7505999378950828 1501199875790165 = 9007199254740993 ∧
  roundUpToGiB 9007199254740993 = 9007199254740992 ∧
  requested <$> updates (@reconcile_pvc Sample.world metrics pvc).1
    = [Some 9007199254740992] ∧
  9007199254740992 < 7505999378950828 + 1501199875790165
    <= 9007199254740992 + 2 ^ 30.
Proof. repeat split; vm_compute; first [reflexivity | discriminate]. Qed.

(** The machine agrees on the conversion that loses the byte. *)
Example rounding_on_hardware :
  Float64.hardware_of_int64 9007199254740993 = Some 9007199254740992.
Proof. vm_compute. reflexivity. Qed.

(** * Further properties of the cycle *)

(** ** What passing every check means *)

(** A claim that passes every check has an expandable storage class, is
    resizable, has metrics and a capacity that is not zero, a threshold
    and an increase that convert, a marker that does not hold it back,
    and a ceiling above its capacity. *)
Lemma first_stop_None_inv `{!Collaborators} metrics pvc :
  first_stop metrics pvc = None →
  ∃ name m threshold capacity increase ceiling,
    StorageClassName (Spec pvc) = Some name ∧
    isStorageClassExpandable name = Ok true ∧
    isPVCResizable pvc = None ∧
    metrics !! (Namespace pvc, Name pvc) = Some m ∧
    convert (threshold_call pvc m) = Ok threshold ∧
    Capacity (Status pvc) !! ResourceStorage = Some capacity ∧
    Quantity.Value capacity ≠ 0 ∧
    convert (increase_call pvc capacity) = Ok increase ∧
    guard_passes pvc m ∧
    getPVCStorageCeiling pvc = Ok ceiling ∧
    capacity < ceiling.
Proof.
  unfold first_stop, pipeline, guard_passes. cbn [find]. unfold stops.
  destruct (StorageClassName (Spec pvc)) as [name |]; [| done].
  destruct (isStorageClassExpandable name) as [[] | ?] eqn:Hexpandable; simpl; [| done | done].
  destruct (isPVCResizable pvc); [done |].
  destruct (metrics !! (Namespace pvc, Name pvc)) as [m |]; [| done].
  destruct (convert (threshold_call pvc m)) as [threshold |] eqn:Hthreshold; simpl; [| done].
  destruct (Capacity (Status pvc) !! ResourceStorage) as [capacity |]; [| done].
  destruct (Quantity.Value capacity =? 0) eqn:Hzero; [done |].
  destruct (convert (increase_call pvc capacity)) as [increase |] eqn:Hincrease; simpl; [| done].
  destruct (index_ok (Annotations pvc) PVCAutoscalerPreviousCapacityAnnotation)
    as [previousCapacity |].
  - destruct (Strconv.ParseInt previousCapacity) as [parsed |]; [| done].
    destruct (parsed =? VolumeCapacityBytes m) eqn:Hpending; [done |].
    destruct (getPVCStorageCeiling pvc) as [ceiling |]; simpl; [| done].
    destruct (0 <=? Quantity.Cmp capacity ceiling) eqn:Hcmp; [done |]. intros _.
    exists name, m, threshold, capacity, increase, ceiling.
    repeat (split; [first [done | by apply Z.eqb_neq] |]).
    split; [exists parsed; split; [done | by apply Z.eqb_neq] |].
    split; [done |].
    apply Z.leb_gt in Hcmp. pose proof (Cmp_nonneg capacity ceiling). lia.
  - destruct (getPVCStorageCeiling pvc) as [ceiling |]; simpl; [| done].
    destruct (0 <=? Quantity.Cmp capacity ceiling) eqn:Hcmp; [done |]. intros _.
    exists name, m, threshold, capacity, increase, ceiling.
    repeat (split; [first [done | by apply Z.eqb_neq] |]).
    apply Z.leb_gt in Hcmp. pose proof (Cmp_nonneg capacity ceiling). lia.
Qed.


(** ** When an update is requested *)

(** An update is requested only for a claim that passed every check and
    whose usage reached the threshold: its storage class allows
    expansion, the claim is resizable, no earlier resize is pending, its
    capacity is below the ceiling. *)
Theorem update_only_when_every_check_passes `{!Collaborators}
    (metrics : gmap (string * string) PVCMetrics) (pvc pvc' : PersistentVolumeClaim) :
  pvc' ∈ updates (reconcile_pvc metrics pvc).1 →
  ∃ name m threshold capacity increase ceiling,
    StorageClassName (Spec pvc) = Some name ∧
    isStorageClassExpandable name = Ok true ∧
    isPVCResizable pvc = None ∧
    metrics !! (Namespace pvc, Name pvc) = Some m ∧
    convertPercentageToBytes
      (index_string (Annotations pvc) PVCAutoscalerThresholdAnnotation)
      (VolumeCapacityBytes m) DefaultThreshold = Ok threshold ∧
    Capacity (Status pvc) !! ResourceStorage = Some capacity ∧
    Quantity.Value capacity ≠ 0 ∧
    convertPercentageToBytes
      (index_string (Annotations pvc) PVCAutoscalerIncreaseAnnotation)
      (Quantity.Value capacity) DefaultIncrease = Ok increase ∧
    guard_passes pvc m ∧
    getPVCStorageCeiling pvc = Ok ceiling ∧
    capacity < ceiling ∧
    threshold <= VolumeUsedBytes m.
Proof.
  intros Hin. destruct (first_stop metrics pvc) as [c |] eqn:Hfirst.
  { destruct (reconcile_pvc_stop metrics pvc c Hfirst) as (_ & _ & _ & Hnone).
    rewrite Hnone in Hin. by apply elem_of_nil in Hin. }
  destruct (first_stop_None_inv metrics pvc Hfirst)
    as (name & m & threshold & capacity & increase & ceiling & Hname & Hexpandable &
        Hresizable & Hm & Hthreshold & Hcapacity & Hzero & Hincrease & Hguard & Hceiling &
        Hbelow).
  exists name, m, threshold, capacity, increase, ceiling.
  repeat (split; [done |]).
  destruct (update_inversion metrics pvc pvc' Hin)
    as (m' & capacity' & threshold' & increase' & ceiling' & requests & annotations &
        Hm' & _ & Hthreshold' & _ & _ & _ & _ & Hreached & _).
  assert (m' = m) as -> by congruence.
  assert (threshold' = threshold) as -> by congruence.
  done.
Qed.

(** The run of the body on a claim that passes every check: the facts
    are used in the order of the code, up to the comparison of the
    usage with the threshold. *)
Ltac run_checks Hname Hexpandable Hresizable Hm Hthreshold Hcapacity Hzero Hincrease
    Hguard Hceiling Hcmp :=
  unfold reconcile_pvc, updatePVCWithNewStorageSize, with_Annotations, with_Requests;
  unfold_M; simp;
  rewrite Hname; simp; rewrite Hexpandable; simp; rewrite Hresizable; simp;
  rewrite Hm; simp; rewrite Hthreshold; simp; rewrite Hcapacity; simp;
  rewrite Hzero; simp; rewrite Hincrease; simp;
  unfold guard_passes in Hguard;
  destruct (index_ok (Annotations _) PVCAutoscalerPreviousCapacityAnnotation); simp;
  [ let parsed := fresh "parsed" in
    let Hne := fresh "Hne" in
    destruct Hguard as (parsed & -> & Hne); apply Z.eqb_neq in Hne; simp; rewrite Hne; simp
  | ];
  rewrite Hceiling; simp; rewrite Hcmp; simp.

(** The same, on to the update, for a usage that reached the threshold
    and maps that are set. *)
Ltac run_due Hname Hexpandable Hresizable Hm Hthreshold Hcapacity Hzero Hincrease
    Hguard Hceiling Hcmp Hreached Hrequests Hannotations :=
  run_checks Hname Hexpandable Hresizable Hm Hthreshold Hcapacity Hzero Hincrease
    Hguard Hceiling Hcmp;
  rewrite Hreached; simp; rewrite Hrequests; simp; rewrite Hannotations; simp.




Lemma update_only_when_every_check_passes_witness :
  let pvc := Sample.claim (Some "standard") {[ PVCAutoscalerCeilingAnnotation := "11Gi" ]}
               {[ ResourceStorage := 10 * Sample.GiB ]} in
  let metrics := Sample.observed (9 * Sample.GiB) (10 * Sample.GiB) in
  let pvc' := resized pvc {[ ResourceStorage := 10 * Sample.GiB ]}
                {[ PVCAutoscalerCeilingAnnotation := "11Gi" ]} (10 * Sample.GiB)
                (11 * Sample.GiB) in
  pvc' ∈ updates (@reconcile_pvc Sample.world metrics pvc).1 ∧
  ∃ name m threshold capacity increase ceiling,
    StorageClassName (Spec pvc) = Some name ∧
    @isStorageClassExpandable Sample.world name = Ok true ∧
    @isPVCResizable Sample.world pvc = None ∧
    metrics !! (Namespace pvc, Name pvc) = Some m ∧
    @convertPercentageToBytes Sample.world
      (index_string (Annotations pvc) PVCAutoscalerThresholdAnnotation)
      (VolumeCapacityBytes m) DefaultThreshold = Ok threshold ∧
    Capacity (Status pvc) !! ResourceStorage = Some capacity ∧
    Quantity.Value capacity ≠ 0 ∧
    @convertPercentageToBytes Sample.world
      (index_string (Annotations pvc) PVCAutoscalerIncreaseAnnotation)
      (Quantity.Value capacity) DefaultIncrease = Ok increase ∧
    guard_passes pvc m ∧
    @getPVCStorageCeiling Sample.world pvc = Ok ceiling ∧
    capacity < ceiling ∧
    threshold <= VolumeUsedBytes m.
Proof.
  assert (Hin :
    resized (Sample.claim (Some "standard") {[ PVCAutoscalerCeilingAnnotation := "11Gi" ]}
               {[ ResourceStorage := 10 * Sample.GiB ]})
      {[ ResourceStorage := 10 * Sample.GiB ]}
      {[ PVCAutoscalerCeilingAnnotation := "11Gi" ]} (10 * Sample.GiB) (11 * Sample.GiB)
    ∈ updates (@reconcile_pvc Sample.world
                 (Sample.observed (9 * Sample.GiB) (10 * Sample.GiB))
                 (Sample.claim (Some "standard")
                    {[ PVCAutoscalerCeilingAnnotation := "11Gi" ]}
                    {[ ResourceStorage := 10 * Sample.GiB ]})).1).
  { vm_compute. apply list_elem_of_here. }
  split; [exact Hin |].
  exact (@update_only_when_every_check_passes Sample.world _ _ _ Hin).
Defined.


(** ** The size requested *)

(** The size requested is the capacity plus the increase rounded by
    line 140, unless that is above the ceiling, and then it is the
    ceiling itself: always a whole number of GiB or the ceiling, and
    never above the ceiling. *)
Theorem requested_size_is_rounded_or_ceiling `{!Collaborators}
    (metrics : gmap (string * string) PVCMetrics) (pvc pvc' : PersistentVolumeClaim) :
  pvc' ∈ updates (reconcile_pvc metrics pvc).1 →
  ∃ capacity increase ceiling target,
    Capacity (Status pvc) !! ResourceStorage = Some capacity ∧
    convertPercentageToBytes
      (index_string (Annotations pvc) PVCAutoscalerIncreaseAnnotation)
      (Quantity.Value capacity) DefaultIncrease = Ok increase ∧
    getPVCStorageCeiling pvc = Ok ceiling ∧
    requested pvc' = Some target ∧
    target = Z.min ceiling (roundUpToGiB (Int64.add capacity increase)) ∧
    ((2 ^ 30 | target) ∨ target = ceiling).
Proof.
  intros Hin.
  destruct (update_inversion metrics pvc pvc' Hin)
    as (m & capacity & threshold & increase & ceiling & requests & annotations &
        _ & Hcapacity & _ & Hincrease & Hceiling & _ & _ & _ & _ & _ & -> & _).
  exists capacity, increase, ceiling, (newStorageFor capacity increase ceiling).
  repeat (split; [done |]).
  split; [unfold requested; simpl; by rewrite lookup_insert_eq |].
  unfold newStorageFor, Quantity.NewQuantity, Quantity.Value, Quantity.Cmp.
  pose proof (roundUpToGiB_divide (Int64.add capacity increase)) as Hdivide.
  destruct (Z.compare_spec (roundUpToGiB (Int64.add capacity increase)) ceiling);
    simpl; (split; [lia |]); first [by left | by right | left; congruence].
Qed.

Lemma requested_size_is_rounded_or_ceiling_witness :
  let pvc := Sample.claim (Some "standard") {[ PVCAutoscalerCeilingAnnotation := "11000M" ]}
               {[ ResourceStorage := 10 * Sample.GiB ]} in
  let metrics := Sample.observed (9 * Sample.GiB) (10 * Sample.GiB) in
  let pvc' := resized pvc {[ ResourceStorage := 10 * Sample.GiB ]}
                {[ PVCAutoscalerCeilingAnnotation := "11000M" ]} (10 * Sample.GiB)
                11000000000 in
  pvc' ∈ updates (@reconcile_pvc Sample.world metrics pvc).1 ∧
  ∃ capacity increase ceiling target,
    Capacity (Status pvc) !! ResourceStorage = Some capacity ∧
    @convertPercentageToBytes Sample.world
      (index_string (Annotations pvc) PVCAutoscalerIncreaseAnnotation)
      (Quantity.Value capacity) DefaultIncrease = Ok increase ∧
    @getPVCStorageCeiling Sample.world pvc = Ok ceiling ∧
    requested pvc' = Some target ∧
    target = Z.min ceiling (roundUpToGiB (Int64.add capacity increase)) ∧
    ((2 ^ 30 | target) ∨ target = ceiling).
Proof.
  assert (Hin :
    resized (Sample.claim (Some "standard") {[ PVCAutoscalerCeilingAnnotation := "11000M" ]}
               {[ ResourceStorage := 10 * Sample.GiB ]})
      {[ ResourceStorage := 10 * Sample.GiB ]}
      {[ PVCAutoscalerCeilingAnnotation := "11000M" ]} (10 * Sample.GiB) 11000000000
    ∈ updates (@reconcile_pvc Sample.world
                 (Sample.observed (9 * Sample.GiB) (10 * Sample.GiB))
                 (Sample.claim (Some "standard")
                    {[ PVCAutoscalerCeilingAnnotation := "11000M" ]}
                    {[ ResourceStorage := 10 * Sample.GiB ]})).1).
  { vm_compute. apply list_elem_of_here. }
  split; [exact Hin |].
  exact (@requested_size_is_rounded_or_ceiling Sample.world _ _ _ Hin).
Defined.

(** ** The update call *)

Lemma call_of_not_update `{!Collaborators} metrics pvc c namespace p :
  call_of metrics pvc c ≠ Some (CallUpdate namespace p).
Proof.
  destruct c; simpl; try done.
  - by destruct (StorageClassName (Spec pvc)).
  - by destruct (metrics !! (Namespace pvc, Name pvc)).
  - by destruct (Capacity (Status pvc) !! ResourceStorage).
Qed.

Lemma elem_of_calls (t : list Event) (e : Event) :
  e ∈ calls t ↔ e ∈ t ∧ ∀ entry, e ≠ Log entry.
Proof.
  unfold calls. rewrite list_elem_of_omap. split.
  - intros (e' & Hin & Hcall). destruct e'; simplify_eq; by split.
  - intros [Hin Hcall]. exists e. split; [done |]. destruct e; [by destruct (Hcall e) | done ..].
Qed.

(** One run of the body calls [Update] at most once, and only on the
    claim it was given: in the claim's namespace, for an object of the
    claim's namespace and name. *)
Theorem at_most_one_update_of_the_claim `{!Collaborators}
    (metrics : gmap (string * string) PVCMetrics) (pvc : PersistentVolumeClaim) :
  (length (updates (reconcile_pvc metrics pvc).1) <= 1)%nat ∧
  ∀ namespace p, CallUpdate namespace p ∈ (reconcile_pvc metrics pvc).1 →
    namespace = Namespace pvc ∧ Namespace p = Namespace pvc ∧ Name p = Name pvc ∧
    updates (reconcile_pvc metrics pvc).1 = [p].
Proof.
  destruct (first_stop metrics pvc) as [c |] eqn:Hfirst.
  - destruct (reconcile_pvc_stop metrics pvc c Hfirst) as (Hcalls & _ & _ & Hnone).
    rewrite Hnone. split; [simpl; lia |].
    intros namespace p Hin.
    assert (Hcall : CallUpdate namespace p ∈ calls (reconcile_pvc metrics pvc).1)
      by (apply elem_of_calls; by split).
    rewrite Hcalls in Hcall. apply list_elem_of_omap in Hcall as (c' & _ & Hcall).
    by apply call_of_not_update in Hcall.
  - destruct (reconcile_pvc_growth metrics pvc Hfirst)
      as (m & capacity & threshold & increase & ceiling & _ & _ & _ & _ & _ & _ & _ & _ &
          Hcalls & Hgrowth).
    assert (Hupdates :
      updates (reconcile_pvc metrics pvc).1 = [] ∨
      ∃ requests annotations,
        updates (reconcile_pvc metrics pvc).1
        = [resized pvc requests annotations (VolumeCapacityBytes m)
             (newStorageFor capacity increase ceiling)]).
    { destruct (threshold <=? VolumeUsedBytes m);
        [destruct (Requests (Resources (Spec pvc))) as [requests |],
                  (Annotations pvc) as [annotations |] |];
        destruct Hgrowth as [Hupdates _]; first [by left | right; by eexists _, _]. }
    split.
    { destruct Hupdates as [-> | (? & ? & ->)]; simpl; lia. }
    intros namespace p Hin.
    assert (Hcall : CallUpdate namespace p ∈ calls (reconcile_pvc metrics pvc).1)
      by (apply elem_of_calls; by split).
    rewrite Hcalls in Hcall. apply elem_of_app in Hcall as [Hcall | Hcall].
    { apply list_elem_of_omap in Hcall as (c' & _ & Hcall).
      by apply call_of_not_update in Hcall. }
    apply list_elem_of_fmap in Hcall as (p' & [= -> ->] & Hp').
    destruct Hupdates as [Hupdates | (requests & annotations & Hupdates)];
      rewrite Hupdates in *; [by apply elem_of_nil in Hp' |].
    by apply list_elem_of_singleton in Hp' as ->.
Qed.

(** ** The outcome of the update *)

(** Whatever the API server answers to the update, the body logs the
    resize as done and runs to its end, so the loop goes on to the next
    claim. A refusal is wrapped with the claim's id and logged as an
    error before that; after an accepted update no error is logged. *)
Theorem update_outcome_is_logged `{!Collaborators}
    (metrics : gmap (string * string) PVCMetrics) (pvc pvc' : PersistentVolumeClaim) :
  pvc' ∈ updates (reconcile_pvc metrics pvc).1 →
  (reconcile_pvc metrics pvc).2 = Next tt ∧
  messages (reconcile_pvc metrics pvc).1
    = [ "processing pvc"; "storageclass allows volume expansion";
        "pvc meets the resizing conditions"; "metrics for pvc received";
        "pvc usage bigger than threshold";
        "PVCAutoscalerPreviousCapacityAnnotation annotation written";
        match Update pvc' with
        | None => "update function called and returned no error"
        | Some _ => "failed to resize pvc"
        end;
        "pvc resized" ] ∧
  match Update pvc' with
  | Some err =>
      Log {| level := Error;
             fields := [ ("pvcId", VString (pvcIdOf (Namespace pvc) (Name pvc)));
                         ("error", VError ("failed to update PVC "
                                           +:+ (pvcIdOf (Namespace pvc) (Name pvc)
                                           +:+ (": " +:+ err)))) ];
             message := "failed to resize pvc" |}
        ∈ (reconcile_pvc metrics pvc).1
  | None =>
      ∀ entry, Log entry ∈ (reconcile_pvc metrics pvc).1 → level entry ≠ Error
  end.
Proof.
  intros Hin.
  destruct (first_stop metrics pvc) as [c |] eqn:Hfirst.
  { destruct (reconcile_pvc_stop metrics pvc c Hfirst) as (_ & _ & _ & Hnone).
    rewrite Hnone in Hin. by apply elem_of_nil in Hin. }
  destruct (first_stop_None_inv metrics pvc Hfirst)
    as (name & m & threshold & capacity & increase & ceiling & Hname & Hexpandable &
        Hresizable & Hm & Hthreshold & Hcapacity & Hzero & Hincrease & Hguard & Hceiling &
        Hbelow).
  destruct (update_inversion metrics pvc pvc' Hin)
    as (m' & capacity' & threshold' & increase' & ceiling' & requests & annotations &
        Hm' & Hcapacity' & Hthreshold' & Hincrease' & Hceiling' & _ & _ & Hreached &
        Hrequests & Hannotations & -> & _).
  assert (m' = m) as -> by congruence.
  assert (capacity' = capacity) as -> by congruence.
  assert (ceiling' = ceiling) as -> by congruence.
  assert (threshold' = threshold) as -> by congruence.
  assert (increase' = increase) as -> by congruence.
  clear Hin Hfirst Hm' Hcapacity' Hthreshold' Hincrease' Hceiling'.
  apply Z.eqb_neq in Hzero. apply Z.leb_le in Hreached.
  assert (Hcmp : (0 <=? Quantity.Cmp capacity ceiling) = false).
  { apply Z.leb_gt. pose proof (Cmp_nonneg capacity ceiling). lia. }
  unfold convert, threshold_call, increase_call, resized, with_Annotations, with_Requests in *.
  simpl in Hthreshold, Hincrease.
  run_due Hname Hexpandable Hresizable Hm Hthreshold Hcapacity Hzero Hincrease
    Hguard Hceiling Hcmp Hreached Hrequests Hannotations.
  all: destruct (Update _) as [err |]; simp; (split; [done |]); (split; [done |]).
  all: try (repeat first [apply list_elem_of_here | apply list_elem_of_further]).
  all: intros entry Hentry;
    repeat (apply elem_of_cons in Hentry as [Heq | Hentry];
            [first [discriminate | by injection Heq as ->] |]);
    by apply elem_of_nil in Hentry.
Qed.

Lemma update_outcome_is_logged_witness :
  let pvc := Sample.claim (Some "standard") ∅ {[ ResourceStorage := 10 * Sample.GiB ]} in
  let metrics := Sample.observed (9 * Sample.GiB) (10 * Sample.GiB) in
  let pvc' := resized pvc {[ ResourceStorage := 10 * Sample.GiB ]} ∅ (10 * Sample.GiB)
                (12 * Sample.GiB) in
  pvc' ∈ updates (@reconcile_pvc refusing_world metrics pvc).1 ∧
  @Update refusing_world pvc' = Some "the object has been modified" ∧
  (@reconcile_pvc refusing_world metrics pvc).2 = Next tt ∧
  messages (@reconcile_pvc refusing_world metrics pvc).1
    = [ "processing pvc"; "storageclass allows volume expansion";
        "pvc meets the resizing conditions"; "metrics for pvc received";
        "pvc usage bigger than threshold";
        "PVCAutoscalerPreviousCapacityAnnotation annotation written";
        match @Update refusing_world pvc' with
        | None => "update function called and returned no error"
        | Some _ => "failed to resize pvc"
        end;
        "pvc resized" ] ∧
  match @Update refusing_world pvc' with
  | Some err =>
      Log {| level := Error;
             fields := [ ("pvcId", VString (pvcIdOf (Namespace pvc) (Name pvc)));
                         ("error", VError ("failed to update PVC "
                                           +:+ (pvcIdOf (Namespace pvc) (Name pvc)
                                           +:+ (": " +:+ err)))) ];
             message := "failed to resize pvc" |}
        ∈ (@reconcile_pvc refusing_world metrics pvc).1
  | None =>
      ∀ entry, Log entry ∈ (@reconcile_pvc refusing_world metrics pvc).1 →
               level entry ≠ Error
  end.
Proof.
  assert (Hin :
    resized (Sample.claim (Some "standard") ∅ {[ ResourceStorage := 10 * Sample.GiB ]})
      {[ ResourceStorage := 10 * Sample.GiB ]} ∅ (10 * Sample.GiB) (12 * Sample.GiB)
    ∈ updates (@reconcile_pvc refusing_world
                 (Sample.observed (9 * Sample.GiB) (10 * Sample.GiB))
                 (Sample.claim (Some "standard") ∅
                    {[ ResourceStorage := 10 * Sample.GiB ]})).1).
  { vm_compute. apply list_elem_of_here. }
  split; [exact Hin |]. split; [reflexivity |].
  exact (@update_outcome_is_logged refusing_world _ _ _ Hin).
Defined.

(** ** Writing to a nil map *)



(** ** The loop over the claims *)



(** The loop runs the body on the items in order, up to the first
    panic: its trace is the traces of the bodies of the first [k] items,
    one after the other, and it ends normally or in a panic. *)
Lemma for_range_prefix {A} (items : list A) (body : A → M unit) :
  ∃ k, (for_range items body).1 = mjoin ((λ item, (body item).1) <$> take k items) ∧
       ((for_range items body).2 = Next tt ∨
        ∃ reason, (for_range items body).2 = Panic reason).
Proof.
  induction items as [| item rest (k & Htrace & Hflow)].
  { exists 0%nat. split; [done | by left]. }
  simpl. unfold mbind, M_bind, end_iteration.
  destruct (body item) as [t [[] | | reason]] eqn:Hbody.
  - destruct (for_range rest body) as [t' flow]. simpl in *.
    exists (S k). simpl. rewrite Hbody. simpl. by rewrite Htrace.
  - destruct (for_range rest body) as [t' flow]. simpl in *.
    exists (S k). simpl. rewrite Hbody. simpl. by rewrite Htrace.
  - exists 1%nat. simpl. rewrite Hbody. simpl. rewrite ?take_0. simpl. rewrite app_nil_r.
    split; [done |]. right. by exists reason.
Qed.

(** If no body panics, the loop runs them all and ends normally. *)
Lemma for_range_no_panic {A} (items : list A) (body : A → M unit) :
  Forall (λ item, ∀ reason, (body item).2 ≠ Panic reason) items →
  for_range items body = (mjoin ((λ item, (body item).1) <$> items), Next tt).
Proof.
  induction 1 as [| item rest Hitem _ IH]; [done |].
  simpl. unfold mbind, M_bind, end_iteration. rewrite IH.
  destruct (body item) as [t [[] | | reason]]; simpl in *; first [done | by destruct (Hitem reason)].
Qed.

(** The body does not fault on a well-formed claim. *)
Lemma well_formed_no_fault `{!Collaborators} metrics pvc :
  well_formed pvc → ∀ reason, (reconcile_pvc metrics pvc).2 ≠ Panic reason.
Proof.
  intros ([name Hname] & [requests Hrequests] & [annotations Hannotations]) reason.
  destruct (first_stop metrics pvc) as [c |] eqn:Hfirst.
  - destruct (reconcile_pvc_stop metrics pvc c Hfirst) as (_ & _ & -> & _).
    rewrite (first_stop_ending metrics pvc c Hfirst). unfold ending. by rewrite Hname.
  - destruct (reconcile_pvc_growth metrics pvc Hfirst)
      as (m & capacity & threshold & increase & ceiling & _ & _ & _ & _ & _ & _ & _ & _ &
          _ & Hgrowth).
    rewrite Hrequests, Hannotations in Hgrowth.
    by destruct (threshold <=? VolumeUsedBytes m); destruct Hgrowth as [_ ->].
Qed.

(** [reconcile] returns an error to its caller exactly when the claims
    cannot be listed: the error is the list's, wrapped, and nothing else
    was done. No failure on a claim, of the metrics or of an update is
    ever returned. *)
Theorem reconcile_error_iff_list_fails `{!Collaborators} :
  (∀ e, reconcile.2 = Next (Some e) ↔
        ∃ err, getAnnotatedPVCs = Failed err ∧
               e = "could not get PersistentVolumeClaims: " +:+ err) ∧
  (∀ err, getAnnotatedPVCs = Failed err → reconcile.1 = [CallGetAnnotatedPVCs]).
Proof.
  unfold reconcile. unfold_M.
  destruct getAnnotatedPVCs as [pvcl | err]; simpl.
  - split; [| done]. intros e. split; [| by intros (? & ? & _)].
    destruct FetchPVCsMetrics as [metrics | err]; simpl; [| done].
    destruct (for_range_prefix (Items pvcl) (reconcile_pvc metrics)) as (k & _ & Hflow).
    destruct (for_range (Items pvcl) (reconcile_pvc metrics)) as [t flow]. simpl in *.
    by destruct Hflow as [-> | [reason ->]].
  - split; [| done]. intros e. split.
    + intros [= <-]. by exists err.
    + by intros (? & [= <-] & ->).
Qed.

(** On well-formed claims the cycle never faults: [reconcile] returns
    nil, and after listing the claims and fetching the metrics its
    trace is the traces of the bodies on the claims, in the order of
    the list; the claims are processed independently of one another. *)
Theorem cycle_on_well_formed_claims `{!Collaborators}
    (pvcl : PersistentVolumeClaimList) (metrics : gmap (string * string) PVCMetrics) :
  getAnnotatedPVCs = Ok pvcl →
  FetchPVCsMetrics = Ok metrics →
  Forall well_formed (Items pvcl) →
  reconcile
  = ([ CallGetAnnotatedPVCs;
       Log {| level := Debug; fields := [("count", VInt (Size pvcl))];
              message := "fetched annotated pvcs" |};
       CallFetchPVCsMetrics;
       Log {| level := Debug; fields := []; message := "fetched pvc metrics" |} ]
     ++ mjoin ((λ pvc, (reconcile_pvc metrics pvc).1) <$> Items pvcl),
     Next None)%list.
Proof.
  intros Hlist Hfetch Hwf. unfold reconcile. rewrite Hlist, Hfetch.
  unfold_M. simpl. rewrite for_range_no_panic.
  - simpl. by rewrite app_nil_r.
  - eapply Forall_impl; [exact Hwf |]. intros pvc. apply well_formed_no_fault.
Qed.

Lemma cycle_on_well_formed_claims_witness :
  let skipped := Sample.claim_named "scratch" (Some "local") ∅
                   {[ ResourceStorage := 10 * Sample.GiB ]} in
  let due := Sample.claim_named "data" (Some "standard") ∅
               {[ ResourceStorage := 10 * Sample.GiB ]} in
  let metrics := Sample.observed_for "scratch" (9 * Sample.GiB) (10 * Sample.GiB)
                 ∪ Sample.observed_for "data" (9 * Sample.GiB) (10 * Sample.GiB) in
  let pvcl := {| Items := [skipped; due]; Size := 2 |} in
  let world := Sample.cluster (Ok pvcl) (Ok metrics) in
  Forall well_formed (Items pvcl) ∧
  @reconcile world
  = ([ CallGetAnnotatedPVCs;
       Log {| level := Debug; fields := [("count", VInt (Size pvcl))];
              message := "fetched annotated pvcs" |};
       CallFetchPVCsMetrics;
       Log {| level := Debug; fields := []; message := "fetched pvc metrics" |} ]
     ++ mjoin ((λ pvc, (@reconcile_pvc world metrics pvc).1) <$> Items pvcl),
     Next None)%list.
Proof.
  assert (Hwf : Forall well_formed
    [ Sample.claim_named "scratch" (Some "local") ∅ {[ ResourceStorage := 10 * Sample.GiB ]};
      Sample.claim_named "data" (Some "standard") ∅ {[ ResourceStorage := 10 * Sample.GiB ]} ]).
  { repeat constructor; by eexists. }
  split; [exact Hwf |].
  exact (@cycle_on_well_formed_claims
           (Sample.cluster
              (Ok {| Items :=
                       [ Sample.claim_named "scratch" (Some "local") ∅
                           {[ ResourceStorage := 10 * Sample.GiB ]};
                         Sample.claim_named "data" (Some "standard") ∅
                           {[ ResourceStorage := 10 * Sample.GiB ]} ];
                     Size := 2 |})
              (Ok (Sample.observed_for "scratch" (9 * Sample.GiB) (10 * Sample.GiB)
                   ∪ Sample.observed_for "data" (9 * Sample.GiB) (10 * Sample.GiB))))
           _ _ eq_refl eq_refl Hwf).
Defined.



(** ** The marker across cycles *)

(** A claim whose marker is not the decimal text of an [int64] is never
    updated: each cycle stops at the parse of the marker, whatever the
    metrics and the collaborators answer, and the claim stays as it is
    until the annotation is changed from outside. *)
Theorem unparsable_marker_blocks_the_claim (pvc : PersistentVolumeClaim)
    (previousCapacity : string) :
  index_ok (Annotations pvc) PVCAutoscalerPreviousCapacityAnnotation = Some previousCapacity →
  Strconv.ParseInt previousCapacity = None →
  (∀ (world : Collaborators) (metrics : gmap (string * string) PVCMetrics),
     updates (@reconcile_pvc world metrics pvc).1 = [] ∧
     (@reconcile_pvc world metrics pvc).2 = ending pvc) ∧
  (∀ observations : list (Collaborators * gmap (string * string) PVCMetrics),
     cycles observations pvc = ([], pvc)).
Proof.
  intros Hmarker Hparse.
  assert (Hrun : ∀ (world : Collaborators) metrics,
    updates (@reconcile_pvc world metrics pvc).1 = [] ∧
    (@reconcile_pvc world metrics pvc).2 = ending pvc).
  { intros world metrics. apply (@stops_no_update world) with PreviousCapacityParse.
    simpl. by rewrite Hmarker, Hparse. }
  split; [done |].
  induction observations as [| [world metrics] rest IH]; [done |].
  destruct (Hrun world metrics) as [Hupdates _].
  simpl. unfold stored_after. rewrite Hupdates. by rewrite IH.
Qed.

Lemma unparsable_marker_blocks_the_claim_witness :
  let pvc := Sample.claim (Some "standard")
               {[ PVCAutoscalerPreviousCapacityAnnotation := "10Gi" ]}
               {[ ResourceStorage := 10 * Sample.GiB ]} in
  Strconv.ParseInt "10Gi" = None ∧
  (∀ (world : Collaborators) (metrics : gmap (string * string) PVCMetrics),
     updates (@reconcile_pvc world metrics pvc).1 = [] ∧
     (@reconcile_pvc world metrics pvc).2 = ending pvc) ∧
  (∀ observations : list (Collaborators * gmap (string * string) PVCMetrics),
     cycles observations pvc = ([], pvc)).
Proof.
  split; [reflexivity |].
  apply unparsable_marker_blocks_the_claim with "10Gi"; reflexivity.
Defined.

Lemma resized_claim_waits_witness :
  let pvc := Sample.claim (Some "standard") ∅ {[ ResourceStorage := 10 * Sample.GiB ]} in
  let metrics := Sample.observed (9 * Sample.GiB) 10501771264 in
  let pvc' := resized pvc {[ ResourceStorage := 10 * Sample.GiB ]} ∅ 10501771264
                (12 * Sample.GiB) in
  pvc' ∈ updates (@reconcile_pvc Sample.world metrics pvc).1 ∧
  Int64.in_range 10501771264 ∧
  ∀ (world' : Collaborators) metrics',
    observed_capacity_is 10501771264 pvc' metrics' →
    updates (@reconcile_pvc world' metrics' pvc').1 = [].
Proof.
  assert (Hin :
    resized (Sample.claim (Some "standard") ∅ {[ ResourceStorage := 10 * Sample.GiB ]})
      {[ ResourceStorage := 10 * Sample.GiB ]} ∅ 10501771264 (12 * Sample.GiB)
    ∈ updates (@reconcile_pvc Sample.world (Sample.observed (9 * Sample.GiB) 10501771264)
                 (Sample.claim (Some "standard") ∅
                    {[ ResourceStorage := 10 * Sample.GiB ]})).1).
  { vm_compute. apply list_elem_of_here. }
  assert (Hrange : Int64.in_range 10501771264) by (split; discriminate).
  split; [exact Hin |]. split; [exact Hrange |].
  exact (@resized_claim_waits Sample.world
           (Sample.observed (9 * Sample.GiB) 10501771264)
           (Sample.claim (Some "standard") ∅ {[ ResourceStorage := 10 * Sample.GiB ]}) _
           {| VolumeUsedBytes := 9 * Sample.GiB; VolumeCapacityBytes := 10501771264 |}
           eq_refl Hrange Hin).
Defined.

(** ** The rounding of line 140 *)

Lemma ceil_div_GiB_integer (f : Z) :
  Float64.ceil_div_GiB f = (f + (2 ^ 30 - 1)) / 2 ^ 30.
Proof.
  unfold Float64.ceil_div_GiB.
  pose proof (Z.div_mod (- f) (2 ^ 30) ltac:(lia)) as Hdm.
  pose proof (Z.mod_pos_bound (- f) (2 ^ 30) ltac:(lia)) as Hm.
  apply Z.div_unique with (2 ^ 30 - 1 - (- f) mod 2 ^ 30); lia.
Qed.

(** Up to 2^53 the rounding through [float64] is the integer round-up to
    a whole number of GiB, and the new size is that or the ceiling,
    whichever is smaller. *)
Theorem rounding_is_integer_round_up (capacity increase ceiling : Z) :
  Z.abs (capacity + increase) <= 2 ^ 53 →
  roundUpToGiB (Int64.add capacity increase)
    = (capacity + increase + (2 ^ 30 - 1)) / 2 ^ 30 * 2 ^ 30 ∧
  newStorageFor capacity increase ceiling
    = Z.min ceiling ((capacity + increase + (2 ^ 30 - 1)) / 2 ^ 30 * 2 ^ 30).
Proof.
  intros Hraw.
  assert (Hround : roundUpToGiB (Int64.add capacity increase)
                   = (capacity + increase + (2 ^ 30 - 1)) / 2 ^ 30 * 2 ^ 30).
  { unfold Int64.add. rewrite wrap64_in_range
      by (unfold Int64.in_range, Int64.min_int, Int64.max_int; lia).
    rewrite roundUpToGiB_exact by done. by rewrite ceil_div_GiB_integer. }
  split; [done |].
  unfold newStorageFor, Quantity.Value, Quantity.NewQuantity, Quantity.Cmp.
  rewrite Hround.
  destruct (Z.compare_spec ((capacity + increase + (2 ^ 30 - 1)) / 2 ^ 30 * 2 ^ 30) ceiling);
    simpl; lia.
Qed.

Lemma rounding_is_integer_round_up_witness :
  Z.abs (10737418241 + 2147483648) <= 2 ^ 53 ∧
  roundUpToGiB (Int64.add 10737418241 2147483648)
    = (10737418241 + 2147483648 + (2 ^ 30 - 1)) / 2 ^ 30 * 2 ^ 30 ∧
  newStorageFor 10737418241 2147483648 (100 * 2 ^ 30)
    = Z.min (100 * 2 ^ 30) ((10737418241 + 2147483648 + (2 ^ 30 - 1)) / 2 ^ 30 * 2 ^ 30).
Proof.
  split; [discriminate |].
  apply rounding_is_integer_round_up. discriminate.
Defined.

(** The conversion to [float64] moves a non-negative [int64] by at most
    512: half the distance between two [float64] below 2^63. *)
Lemma float64_of_int64_error (x : Z) :
  0 <= x < 2 ^ 63 → Z.abs (Float64.float64_of_int64 x - x) <= 512.
Proof.
  intros Hx. unfold Float64.float64_of_int64.
  rewrite (Z.abs_eq x) by lia.
  destruct (Z.ltb_spec x (2 ^ 53)) as [| Hbig]; [rewrite Z.sub_diag; simpl; lia |].
  assert (Hlog : 53 <= Z.log2 x <= 62).
  { split; [apply Z.log2_le_pow2; lia | apply Z.lt_succ_r, Z.log2_lt_pow2; lia]. }
  set (e := Z.log2 x - 52). assert (He : 1 <= e <= 10) by (unfold e; lia).
  rewrite Z.shiftr_div_pow2 by lia.
  assert (Hd : 2 ^ e = 2 * 2 ^ (e - 1)).
  { replace e with (Z.succ (e - 1)) at 1 by lia. apply Z.pow_succ_r. lia. }
  assert (Hh : 0 < 2 ^ (e - 1) <= 512).
  { split; [apply Z.pow_pos_nonneg; lia |].
    change 512 with (2 ^ 9). apply Z.pow_le_mono_r; lia. }
  pose proof (Z.div_mod x (2 ^ e) ltac:(lia)) as Hdm.
  pose proof (Z.mod_pos_bound x (2 ^ e) ltac:(lia)) as Hr.
  replace (Z.sgn x) with 1 by (symmetry; apply Z.sgn_pos; lia).
  set (q := x / 2 ^ e) in *. set (r := x mod 2 ^ e) in *. set (h := 2 ^ (e - 1)) in *.
  set (d := 2 ^ e) in *.
  destruct (Z.ltb_spec h r); simpl.
  - nia.
  - destruct (Z.eqb_spec r h); simpl; [destruct (Z.odd q) |]; nia.
Qed.

(** Short of overflow, the new size is above the capacity as soon as the
    increase is above the 512 bytes that the conversion can lose. *)
Lemma newStorageFor_grows_wide (capacity increase ceiling : Z) :
  0 <= capacity → 0 < increase →
  capacity + increase <= 2 ^ 53 ∨ 512 < increase →
  capacity + increase <= 2 ^ 63 - 2 ^ 31 →
  capacity < ceiling →
  capacity < newStorageFor capacity increase ceiling <= ceiling.
Proof.
  intros Hcapacity Hincrease Hregime Hoverflow Hceiling.
  split; [| apply newStorageFor_le_ceiling].
  destruct (Z.le_gt_cases (capacity + increase) (2 ^ 53)) as [Hsmall | Hlarge].
  { by apply newStorageFor_grows. }
  destruct Hregime as [| Hwide]; [lia |].
  unfold newStorageFor, Quantity.Value, Quantity.NewQuantity, Int64.add.
  rewrite wrap64_in_range
    by (unfold Int64.in_range, Int64.min_int, Int64.max_int; lia).
  pose proof (float64_of_int64_error (capacity + increase) ltac:(lia)) as Herror.
  pose proof (ceil_div_GiB_bounds (Float64.float64_of_int64 (capacity + increase))) as Hceil.
  assert (Hround : roundUpToGiB (capacity + increase)
                   = Float64.ceil_div_GiB (Float64.float64_of_int64 (capacity + increase))
                     * 2 ^ 30).
  { unfold roundUpToGiB, Int64.shl. rewrite Z.shiftl_mul_pow2 by lia.
    apply wrap64_in_range. unfold Int64.in_range, Int64.min_int, Int64.max_int. lia. }
  rewrite Hround. unfold Quantity.Cmp.
  destruct (Z.compare_spec
              (Float64.ceil_div_GiB (Float64.float64_of_int64 (capacity + increase)) * 2 ^ 30)
              ceiling); simpl; lia.
Qed.

(** Short of overflow, a resize grows the claim: when the capacity plus
    the increase is at most 2^63 - 2^31 and the increase is positive,
    and above 512 bytes where the sum exceeds 2^53, the size requested
    is above the capacity and at most the ceiling. An increase of one
    percent of the capacity or more is always in that case. *)
Theorem resize_grows_short_of_overflow `{!Collaborators}
    (metrics : gmap (string * string) PVCMetrics) (pvc pvc' : PersistentVolumeClaim) :
  pvc' ∈ updates (reconcile_pvc metrics pvc).1 →
  ∃ capacity increase ceiling target,
    Capacity (Status pvc) !! ResourceStorage = Some capacity ∧
    convertPercentageToBytes
      (index_string (Annotations pvc) PVCAutoscalerIncreaseAnnotation)
      (Quantity.Value capacity) DefaultIncrease = Ok increase ∧
    getPVCStorageCeiling pvc = Ok ceiling ∧
    requested pvc' = Some target ∧
    target <= ceiling ∧
    (0 <= capacity → 0 < increase → capacity + increase <= 2 ^ 63 - 2 ^ 31 →
     capacity + increase <= 2 ^ 53 ∨ 512 < increase ∨ capacity <= 100 * increase →
     capacity < target).
Proof.
  intros Hin.
  destruct (update_inversion metrics pvc pvc' Hin)
    as (m & capacity & threshold & increase & ceiling & requests & annotations &
        _ & Hcapacity & _ & Hincrease & Hceiling & _ & Hbelow & _ & _ & _ & -> & _).
  exists capacity, increase, ceiling, (newStorageFor capacity increase ceiling).
  repeat (split; [done |]).
  split; [unfold requested; simpl; by rewrite lookup_insert_eq |].
  split; [apply newStorageFor_le_ceiling |].
  intros Hnonneg Hpositive Hoverflow Hregime.
  apply newStorageFor_grows_wide; try done.
  destruct (Z.le_gt_cases (capacity + increase) (2 ^ 53)); [by left | right; lia].
Qed.

Lemma resize_grows_short_of_overflow_witness :
  let pvc := Sample.claim (Some "standard") {[ PVCAutoscalerCeilingAnnotation := "16Pi" ]}
               {[ ResourceStorage := 7505999378950828 ]} in
  let metrics := Sample.observed 7505999378950828 7505999378950828 in
  let pvc' := resized pvc {[ ResourceStorage := 7505999378950828 ]}
                {[ PVCAutoscalerCeilingAnnotation := "16Pi" ]} 7505999378950828
                9007199254740992 in
  pvc' ∈ updates (@reconcile_pvc Sample.world metrics pvc).1 ∧
  ∃ capacity increase ceiling target,
    Capacity (Status pvc) !! ResourceStorage = Some capacity ∧
    @convertPercentageToBytes Sample.world
      (index_string (Annotations pvc) PVCAutoscalerIncreaseAnnotation)
      (Quantity.Value capacity) DefaultIncrease = Ok increase ∧
    @getPVCStorageCeiling Sample.world pvc = Ok ceiling ∧
    requested pvc' = Some target ∧
    target <= ceiling ∧
    (0 <= capacity → 0 < increase → capacity + increase <= 2 ^ 63 - 2 ^ 31 →
     capacity + increase <= 2 ^ 53 ∨ 512 < increase ∨ capacity <= 100 * increase →
     capacity < target).
Proof.
  assert (Hin :
    resized (Sample.claim (Some "standard") {[ PVCAutoscalerCeilingAnnotation := "16Pi" ]}
               {[ ResourceStorage := 7505999378950828 ]})
      {[ ResourceStorage := 7505999378950828 ]}
      {[ PVCAutoscalerCeilingAnnotation := "16Pi" ]} 7505999378950828 9007199254740992
    ∈ updates (@reconcile_pvc Sample.world
                 (Sample.observed 7505999378950828 7505999378950828)
                 (Sample.claim (Some "standard")
                    {[ PVCAutoscalerCeilingAnnotation := "16Pi" ]}
                    {[ ResourceStorage := 7505999378950828 ]})).1).
  { vm_compute. apply list_elem_of_here. }
  split; [exact Hin |].
  exact (@resize_grows_short_of_overflow Sample.world _ _ _ Hin).
Defined.

(** ** What is logged *)



